(** * ChatSystemPlugin: the authority pipeline and the client contract

    A shallow embedding of [ChatSubsystem.cpp] (validation, rate limiting,
    history, routing) and [ChatComponent.cpp] (client sends, the server RPC
    and its validation, reception and muting), with the properties of the
    specification proved over it. *)

From stdpp Require Import gmap strings list pretty.
From Stdlib Require Import QArith Qround.

Open Scope Z_scope.

(** ** Engine primitives *)

(** [FString]: [Len] is the character count, [IsEmpty] tests it against 0. *)
Definition FString := string.
Definition Len (s : FString) : Z := Z.of_nat (String.length s).
Definition IsEmpty (s : FString) : bool := bool_decide (Len s = 0).

(** [float] arithmetic as the sources use it: subtraction, product and the two
    comparisons, and [printf]'s [%.1f].  No law is assumed of them, so every
    result below holds for IEEE single precision as for exact arithmetic. *)
Class FloatOps (F : Type) := {
  fzero : F;
  fone : F;
  fadd : F → F → F;
  fsub : F → F → F;
  fmul : F → F → F;
  fltb : F → F → bool;
  fleb : F → F → bool;
  Printf_1f : F → FString;
}.

(** [printf]'s [%d] on an [int32]. *)
Definition Printf_d (n : Z) : FString := pretty n.

(** Object identities; a pointer is an [option], [nullptr] is [None]. *)
Definition APlayerState := positive.
Definition APawn := positive.
Definition ChatComponentId := positive.
Definition FDateTime := Z.

(** The owner of a component is some actor; [Cast<APlayerState>] succeeds on
    the first constructor only. *)
Inductive AActor :=
  | PlayerStateActor (ps : APlayerState)
  | OtherActor (a : positive).

#[global] Instance AActor_eq_dec : EqDecision AActor.
Proof. solve_decision. Defined.

Definition Cast_APlayerState (a : option AActor) : option APlayerState :=
  match a with
  | Some (PlayerStateActor ps) => Some ps
  | _ => None
  end.

(** ** Data/ChatMessage.h *)

Module EChatChannel.
Inductive t := Global | Team | Whisper | System | Proximity | Custom.

#[global] Instance eq_dec : EqDecision t.
Proof. solve_decision. Defined.
End EChatChannel.

Section ChatSystem.
Context {F : Type} `{Float : FloatOps F}.

Record FVector := { vX : F; vY : F; vZ : F }.

(** [FVector::DistSquared]. *)
Definition Square (a : F) : F := fmul a a.
Definition DistSquared (V1 V2 : FVector) : F :=
  fadd (fadd (Square (fsub (vX V2) (vX V1))) (Square (fsub (vY V2) (vY V1))))
       (Square (fsub (vZ V2) (vZ V1))).

Record FLinearColor := { cR : F; cG : F; cB : F; cA : F }.
Definition White : FLinearColor := {| cR := fone; cG := fone; cB := fone; cA := fone |}.
Definition Yellow : FLinearColor := {| cR := fone; cG := fone; cB := fzero; cA := fone |}.

Record FChatMessage := {
  Sender : option APlayerState;
  SenderName : FString;
  Content : FString;
  Channel : EChatChannel.t;
  Timestamp : FDateTime;
  MessageColor : FLinearColor;
  WhisperTarget : option APlayerState;
}.

Record FChatSettings := {
  MaxMessageLength : Z;
  MessageCooldown : F;
  MaxHistorySize : Z;
  bEnableProfanityFilter : bool;
  ProximityChatRadius : F;
  bAllowEmptyMessages : bool;
}.

(** ** The engine as the chat code sees it at the time of a call *)

Record UWorld := {
  GetAuthGameMode : bool;   (* non-null on the server only *)
  GetTimeSeconds : F;
}.

Record Engine := {
  GetWorld : option UWorld;
  GetOwner : ChatComponentId → option AActor;
  GetPawn : APlayerState → option APawn;
  GetActorLocation : APawn → FVector;
  GetPlayerName : APlayerState → FString;
  Now : FDateTime;
}.

(** [FChatMessage(InSender, InContent, InChannel)]. *)
Definition MakeChatMessage (E : Engine) (InSender : option APlayerState)
    (InContent : FString) (InChannel : EChatChannel.t) : FChatMessage :=
  {| Sender := InSender;
     SenderName := match InSender with
                   | Some ps => GetPlayerName E ps
                   | None => "System"
                   end;
     Content := InContent;
     Channel := InChannel;
     Timestamp := Now E;
     MessageColor := White;
     WhisperTarget := None |}.

(** ** ChatSubsystem.h: the authority's state *)

Record UChatSubsystem := {
  ChatSettings : FChatSettings;
  MessageHistory : list FChatMessage;
  RegisteredComponents : list (option ChatComponentId);
  PlayerMessageTimes : gmap APlayerState F;
}.

(** The remote calls the code issues, in the order it issues them. *)
Inductive RPC :=
  | ClientReceiveMessage (c : ChatComponentId) (Message : FChatMessage)
  | ClientNotifyMessageFailed (c : ChatComponentId) (Reason : FString)
  | ServerSendMessage (c : ChatComponentId) (Content : FString)
      (Channel : EChatChannel.t) (WhisperTarget : option APlayerState).

(** A [bool] result with its [OutFailureReason]. *)
Inductive Verdict :=
  | Accepted
  | Rejected (OutFailureReason : FString).

(** ** ChatSubsystem.cpp *)

Definition ValidateMessage (Sys : UChatSubsystem) (Message : FChatMessage) : Verdict :=
  if IsEmpty (Content Message) && negb (bAllowEmptyMessages (ChatSettings Sys)) then
    Rejected "Message content is empty"
  else if bool_decide (Len (Content Message) > MaxMessageLength (ChatSettings Sys)) then
    Rejected ("Message too long (max "
                +:+ Printf_d (MaxMessageLength (ChatSettings Sys)) +:+ " characters)")
  else if bool_decide (Channel Message ≠ EChatChannel.System)
          && bool_decide (Sender Message = None) then
    Rejected "Invalid sender"
  else if bool_decide (Channel Message = EChatChannel.Whisper)
          && bool_decide (WhisperTarget Message = None) then
    Rejected "Whisper requires a target player"
  else Accepted.

(** The authority's member functions read and write the subsystem, issue
    remote calls, and stop on a failed range check ([None]). *)
Definition Auth (T : Type) : Type :=
  UChatSubsystem → option (T * UChatSubsystem * list RPC).

#[global] Instance Auth_ret : MRet Auth := λ T x Sys, Some (x, Sys, []).
#[global] Instance Auth_bind : MBind Auth := λ T U f m Sys,
  match m Sys with
  | None => None
  | Some (x, Sys1, out1) =>
      match f x Sys1 with
      | None => None
      | Some (y, Sys2, out2) => Some (y, Sys2, out1 ++ out2)
      end
  end.

(** [this] reads the subsystem's fields; [call] issues the remote calls that
    a [void] sending function makes (these read the fields and change none). *)
Definition this : Auth UChatSubsystem := λ Sys, Some (Sys, Sys, []).
Definition call (out : list RPC) : Auth unit := λ Sys, Some (tt, Sys, out).

Definition set_MessageHistory (h : list FChatMessage) (Sys : UChatSubsystem) :=
  {| ChatSettings := ChatSettings Sys; MessageHistory := h;
     RegisteredComponents := RegisteredComponents Sys;
     PlayerMessageTimes := PlayerMessageTimes Sys |}.
Definition set_PlayerMessageTimes (t : gmap APlayerState F) (Sys : UChatSubsystem) :=
  {| ChatSettings := ChatSettings Sys; MessageHistory := MessageHistory Sys;
     RegisteredComponents := RegisteredComponents Sys;
     PlayerMessageTimes := t |}.
Definition set_RegisteredComponents (r : list (option ChatComponentId))
    (Sys : UChatSubsystem) :=
  {| ChatSettings := ChatSettings Sys; MessageHistory := MessageHistory Sys;
     RegisteredComponents := r;
     PlayerMessageTimes := PlayerMessageTimes Sys |}.
Definition set_ChatSettings (s : FChatSettings) (Sys : UChatSubsystem) :=
  {| ChatSettings := s; MessageHistory := MessageHistory Sys;
     RegisteredComponents := RegisteredComponents Sys;
     PlayerMessageTimes := PlayerMessageTimes Sys |}.

(** The [while] loop of [AddToHistory]: [RemoveAt(0)] while the array is
    longer than the bound.  On an empty array [RemoveAt(0)] is out of range. *)
Fixpoint TrimHistory (MaxSize : Z) (History : list FChatMessage)
    : option (list FChatMessage) :=
  if bool_decide (Z.of_nat (length History) > MaxSize) then
    match History with
    | [] => None
    | _ :: rest => TrimHistory MaxSize rest
    end
  else Some History.

Definition AddToHistory (Message : FChatMessage) : Auth unit := λ Sys,
  match TrimHistory (MaxHistorySize (ChatSettings Sys))
                    (MessageHistory Sys ++ [Message]) with
  | None => None
  | Some h => Some (tt, set_MessageHistory h Sys, [])
  end.

(** The reason is [Some] exactly when the C++ function returns [true]. *)
Definition IsPlayerRateLimited (E : Engine) (PlayerState : option APlayerState)
    : Auth (option FString) := λ Sys,
  match PlayerState with
  | None => Some (None, Sys, [])
  | Some ps =>
      match GetWorld E with
      | None => Some (None, Sys, [])
      | Some World =>
          let CurrentTime := GetTimeSeconds World in
          let cooldown := MessageCooldown (ChatSettings Sys) in
          let update :=
            Some (None, set_PlayerMessageTimes
                          (<[ps := CurrentTime]> (PlayerMessageTimes Sys)) Sys, []) in
          match PlayerMessageTimes Sys !! ps with
          | Some LastMessageTime =>
              let TimeSinceLastMessage := fsub CurrentTime LastMessageTime in
              if fltb TimeSinceLastMessage cooldown then
                Some (Some ("Please wait "
                              +:+ Printf_1f (fsub cooldown TimeSinceLastMessage)
                              +:+ " seconds before sending another message"),
                      Sys, [])
              else update
          | None => update
          end
      end
  end.

Definition SendToAllPlayers (E : Engine) (Sys : UChatSubsystem)
    (Message : FChatMessage) : list RPC :=
  Component ← RegisteredComponents Sys;
  match Component with
  | Some c => if GetOwner E c is Some _ then [ClientReceiveMessage c Message] else []
  | None => []
  end.

Definition SendToTeam (E : Engine) (Sys : UChatSubsystem)
    (Message : FChatMessage) : list RPC :=
  match Sender Message with
  | None => []
  | Some _ => SendToAllPlayers E Sys Message
  end.

Fixpoint FirstOwnedBy (E : Engine) (PlayerState : APlayerState)
    (Components : list (option ChatComponentId)) : option ChatComponentId :=
  match Components with
  | [] => None
  | Component :: rest =>
      match Component with
      | Some c =>
          if bool_decide (GetOwner E c = Some (PlayerStateActor PlayerState))
          then Some c else FirstOwnedBy E PlayerState rest
      | None => FirstOwnedBy E PlayerState rest
      end
  end.

Definition GetChatComponentForPlayer (E : Engine) (Sys : UChatSubsystem)
    (PlayerState : option APlayerState) : option ChatComponentId :=
  match PlayerState with
  | None => None
  | Some ps => FirstOwnedBy E ps (RegisteredComponents Sys)
  end.

Definition SendToPlayer (E : Engine) (Sys : UChatSubsystem)
    (Message : FChatMessage) : list RPC :=
  match WhisperTarget Message with
  | None => []
  | Some _ =>
      (match GetChatComponentForPlayer E Sys (WhisperTarget Message) with
       | Some TargetComponent => [ClientReceiveMessage TargetComponent Message]
       | None => []
       end)
      ++
      (match Sender Message with
       | Some _ =>
           match GetChatComponentForPlayer E Sys (Sender Message) with
           | Some SenderComponent => [ClientReceiveMessage SenderComponent Message]
           | None => []
           end
       | None => []
       end)
  end.

Definition SendToProximity (E : Engine) (Sys : UChatSubsystem)
    (Message : FChatMessage) : list RPC :=
  match Sender Message with
  | None => []
  | Some SenderPS =>
      match GetPawn E SenderPS with
      | None => []
      | Some SenderPawn =>
          let SenderLocation := GetActorLocation E SenderPawn in
          let RadiusSquared :=
            fmul (ProximityChatRadius (ChatSettings Sys))
                 (ProximityChatRadius (ChatSettings Sys)) in
          Component ← RegisteredComponents Sys;
          match Component with
          | None => []
          | Some c =>
              match Cast_APlayerState (GetOwner E c) with
              | None => []
              | Some PS =>
                  match GetPawn E PS with
                  | None => []
                  | Some Pawn =>
                      let DistanceSquared :=
                        DistSquared SenderLocation (GetActorLocation E Pawn) in
                      if fleb DistanceSquared RadiusSquared
                      then [ClientReceiveMessage c Message] else []
                  end
              end
          end
      end
  end.

Definition RouteMessage (E : Engine) (Sys : UChatSubsystem)
    (Message : FChatMessage) : list RPC :=
  match Channel Message with
  | EChatChannel.Global | EChatChannel.System => SendToAllPlayers E Sys Message
  | EChatChannel.Team => SendToTeam E Sys Message
  | EChatChannel.Whisper => SendToPlayer E Sys Message
  | EChatChannel.Proximity => SendToProximity E Sys Message
  | EChatChannel.Custom => SendToAllPlayers E Sys Message
  end.

Definition BroadcastMessage (E : Engine) (Message : FChatMessage) : Auth Verdict :=
  match GetWorld E with
  | None => mret (Rejected "Invalid world")
  | Some World =>
      if negb (GetAuthGameMode World) then
        mret (Rejected "Only server can broadcast messages")
      else
        Sys ← this;
        match ValidateMessage Sys Message with
        | Rejected reason => mret (Rejected reason)
        | Accepted =>
            limited ← (if Sender Message is Some _
                       then IsPlayerRateLimited E (Sender Message)
                       else mret None);
            match limited with
            | Some reason => mret (Rejected reason)
            | None =>
                AddToHistory Message;;
                Sys1 ← this;
                call (RouteMessage E Sys1 Message);;
                mret Accepted
            end
        end
  end.

Definition BroadcastSystemMessage (E : Engine) (Content : FString)
    (Color : FLinearColor) : Auth unit :=
  match GetWorld E with
  | None => mret tt
  | Some World =>
      if negb (GetAuthGameMode World) then mret tt
      else
        let SystemMessage :=
          {| Sender := None; SenderName := "System"; Content := Content;
             Channel := EChatChannel.System; Timestamp := Now E;
             MessageColor := Color; WhisperTarget := None |} in
        AddToHistory SystemMessage;;
        Sys ← this;
        call (SendToAllPlayers E Sys SystemMessage)
  end.

Definition GetRecentMessages (Sys : UChatSubsystem) (Count : Z) : list FChatMessage :=
  let Num := Z.of_nat (length (MessageHistory Sys)) in
  if bool_decide (Count <= 0 ∨ Count >= Num) then MessageHistory Sys
  else
    let StartIndex := Z.max 0 (Num - Count) in
    omap (λ i, MessageHistory Sys !! i)
         (seq (Z.to_nat StartIndex) (Z.to_nat (Num - StartIndex))).

Definition ClearMessageHistory : Auth unit := λ Sys,
  Some (tt, set_MessageHistory [] Sys, []).

Definition SetChatSettings (E : Engine) (NewSettings : FChatSettings) : Auth unit :=
  λ Sys,
  match GetWorld E with
  | None => Some (tt, Sys, [])
  | Some World =>
      if negb (GetAuthGameMode World) then Some (tt, Sys, [])
      else Some (tt, set_ChatSettings NewSettings Sys, [])
  end.

Definition RegisterChatComponent (Component : option ChatComponentId) : Auth unit :=
  λ Sys,
  match Component with
  | Some c =>
      if bool_decide (Some c ∈ RegisteredComponents Sys) then Some (tt, Sys, [])
      else Some (tt, set_RegisteredComponents
                       (RegisteredComponents Sys ++ [Some c]) Sys, [])
  | None => Some (tt, Sys, [])
  end.

Definition UnregisterChatComponent (E : Engine) (Component : option ChatComponentId)
    : Auth unit := λ Sys,
  match Component with
  | Some c =>
      let Sys1 :=
        set_RegisteredComponents
          (filter (λ x, x ≠ Some c) (RegisteredComponents Sys)) Sys in
      match Cast_APlayerState (GetOwner E c) with
      | Some PS =>
          Some (tt, set_PlayerMessageTimes (delete PS (PlayerMessageTimes Sys1)) Sys1, [])
      | None => Some (tt, Sys1, [])
      end
  | None => Some (tt, Sys, [])
  end.

(** ** ChatComponent.h: what each client's component owns *)

Record UChatComponent := {
  MutedPlayers : list APlayerState;
  LastMessageTime : F;
}.

Definition NewChatComponent : UChatComponent :=
  {| MutedPlayers := []; LastMessageTime := fzero |}.

Definition set_MutedPlayers (m : list APlayerState) (This : UChatComponent) :=
  {| MutedPlayers := m; LastMessageTime := LastMessageTime This |}.
Definition set_LastMessageTime (t : F) (This : UChatComponent) :=
  {| MutedPlayers := MutedPlayers This; LastMessageTime := t |}.

(** What a component raises for its local listeners. *)
Inductive UIEvent :=
  | OnChatMessageReceived (Message : FChatMessage).

(** ** ChatComponent.cpp

    [self] is the identity of the component, [This] its fields, and
    [Subsystem] what [GetChatSubsystem()] returns on the calling machine. *)

Definition GetOwningPlayerState (E : Engine) (self : ChatComponentId)
    : option APlayerState :=
  Cast_APlayerState (GetOwner E self).

Definition ValidateMessageLocally (E : Engine) (Subsystem : option UChatSubsystem)
    (This : UChatComponent) (Content : FString)
    : option (Verdict * UChatComponent) :=
  if IsEmpty Content then Some (Rejected "Message cannot be empty", This)
  else
    match Subsystem with
    | None => Some (Accepted, This)
    | Some Sub =>
        let Settings := ChatSettings Sub in
        if bool_decide (Len Content > MaxMessageLength Settings) then
          Some (Rejected ("Message too long (max "
                            +:+ Printf_d (MaxMessageLength Settings)
                            +:+ " characters)"), This)
        else
          match GetWorld E with
          | None => None   (* GetWorld() is dereferenced unchecked *)
          | Some World =>
              let CurrentTime := GetTimeSeconds World in
              let TimeSinceLastMessage := fsub CurrentTime (LastMessageTime This) in
              if fltb TimeSinceLastMessage (MessageCooldown Settings) then
                Some (Rejected ("Please wait "
                                  +:+ Printf_1f (fsub (MessageCooldown Settings)
                                                      TimeSinceLastMessage)
                                  +:+ " seconds before sending another message"),
                      This)
              else Some (Accepted, set_LastMessageTime CurrentTime This)
          end
    end.

Definition SendChatMessage (E : Engine) (Subsystem : option UChatSubsystem)
    (self : ChatComponentId) (This : UChatComponent)
    (Content : FString) (Channel : EChatChannel.t)
    : option (UChatComponent * list RPC) :=
  if IsEmpty Content then Some (This, [])
  else
    match GetOwningPlayerState E self with
    | None => Some (This, [])
    | Some OwningPS =>
        match ValidateMessageLocally E Subsystem This Content with
        | None => None
        | Some (Rejected FailureReason, This1) =>
            Some (This1, [ClientNotifyMessageFailed self FailureReason])
        | Some (Accepted, This1) =>
            Some (This1, [ServerSendMessage self Content Channel None])
        end
    end.

Definition SendWhisper (E : Engine) (Subsystem : option UChatSubsystem)
    (self : ChatComponentId) (This : UChatComponent)
    (TargetPlayer : option APlayerState) (Content : FString)
    : option (UChatComponent * list RPC) :=
  if negb (bool_decide (is_Some TargetPlayer)) || IsEmpty Content then Some (This, [])
  else
    match GetOwningPlayerState E self with
    | None => Some (This, [])
    | Some OwningPS =>
        match ValidateMessageLocally E Subsystem This Content with
        | None => None
        | Some (Rejected FailureReason, This1) =>
            Some (This1, [ClientNotifyMessageFailed self FailureReason])
        | Some (Accepted, This1) =>
            Some (This1, [ServerSendMessage self Content EChatChannel.Whisper
                            TargetPlayer])
        end
    end.

Definition SendProximityMessage (E : Engine) (Subsystem : option UChatSubsystem)
    (self : ChatComponentId) (This : UChatComponent) (Content : FString)
    : option (UChatComponent * list RPC) :=
  if IsEmpty Content then Some (This, [])
  else
    match GetOwningPlayerState E self with
    | None => Some (This, [])
    | Some OwningPS =>
        match ValidateMessageLocally E Subsystem This Content with
        | None => None
        | Some (Rejected FailureReason, This1) =>
            Some (This1, [ClientNotifyMessageFailed self FailureReason])
        | Some (Accepted, This1) =>
            Some (This1, [ServerSendMessage self Content EChatChannel.Proximity None])
        end
    end.

Definition ServerSendMessage_Validate (Content : FString) (Channel : EChatChannel.t)
    (WhisperTarget : option APlayerState) : bool :=
  negb (IsEmpty Content) && bool_decide (Len Content <= 1024).

(** The server's subsystem may be missing; when present it is run as above. *)
Definition ServerSendMessage_Implementation (E : Engine) (self : ChatComponentId)
    (Content : FString) (Channel : EChatChannel.t)
    (WhisperTarget : option APlayerState) (Subsystem : option UChatSubsystem)
    : option (option UChatSubsystem * list RPC) :=
  match Subsystem with
  | None =>
      Some (None, [ClientNotifyMessageFailed self "Chat subsystem not available"])
  | Some Sys =>
      match GetOwningPlayerState E self with
      | None => Some (Some Sys, [ClientNotifyMessageFailed self "Invalid player state"])
      | Some OwningPS =>
          let Message :=
            let M := MakeChatMessage E (Some OwningPS) Content Channel in
            {| Sender := Sender M; SenderName := SenderName M; Content := Content;
               Channel := Channel; Timestamp := Timestamp M;
               MessageColor := MessageColor M; WhisperTarget := WhisperTarget |} in
          match BroadcastMessage E Message Sys with
          | None => None
          | Some (Accepted, Sys1, out) => Some (Some Sys1, out)
          | Some (Rejected FailureReason, Sys1, out) =>
              Some (Some Sys1, out ++ [ClientNotifyMessageFailed self FailureReason])
          end
      end
  end.

(** Modelled from the spec: the server-side dispatch of the
    [Server, Reliable, WithValidation] call [ServerSendMessage], which the
    build generates from [ChatComponent.h] and is not among the sources.
    The server enforces [ServerSendMessage_Validate] on the arriving call
    first; a call that fails it is rejected at the boundary, and only a call
    that passes reaches [ServerSendMessage_Implementation]. *)
Definition ServerSendMessage_Receive (E : Engine) (self : ChatComponentId)
    (Content : FString) (Channel : EChatChannel.t)
    (WhisperTarget : option APlayerState) (Subsystem : option UChatSubsystem)
    : option (option UChatSubsystem * list RPC) :=
  if ServerSendMessage_Validate Content Channel WhisperTarget then
    ServerSendMessage_Implementation E self Content Channel WhisperTarget Subsystem
  else Some (Subsystem, []).

Definition IsPlayerMuted (This : UChatComponent) (Player : option APlayerState) : bool :=
  match Player with
  | Some p => bool_decide (p ∈ MutedPlayers This)
  | None => false
  end.

Definition ClientReceiveMessage_Implementation (This : UChatComponent)
    (Message : FChatMessage) : list UIEvent :=
  if bool_decide (is_Some (Sender Message)) && IsPlayerMuted This (Sender Message)
  then []
  else [OnChatMessageReceived Message].

Definition MutePlayer (E : Engine) (self : ChatComponentId) (This : UChatComponent)
    (PlayerToMute : option APlayerState) : UChatComponent :=
  match PlayerToMute with
  | None => This
  | Some p =>
      if bool_decide (Some p = GetOwningPlayerState E self) then This
      else if bool_decide (p ∈ MutedPlayers This) then This
      else set_MutedPlayers (MutedPlayers This ++ [p]) This
  end.

Definition UnmutePlayer (This : UChatComponent) (PlayerToUnmute : option APlayerState)
    : UChatComponent :=
  match PlayerToUnmute with
  | None => This
  | Some p => set_MutedPlayers (filter (λ q, q ≠ p) (MutedPlayers This)) This
  end.

Definition ClearMutedPlayers (This : UChatComponent) : UChatComponent :=
  set_MutedPlayers [] This.

(** The client calls of a trace, each run at the component it addresses;
    [Clients] gives every component's client-side fields. *)
Definition Deliver (Clients : ChatComponentId → UChatComponent) (out : list RPC)
    : list (ChatComponentId * UIEvent) :=
  rpc ← out;
  match rpc with
  | ClientReceiveMessage c Message =>
      (λ e, (c, e)) <$> ClientReceiveMessage_Implementation (Clients c) Message
  | _ => []
  end.

End ChatSystem.

Arguments FChatMessage F : clear implicits.
Arguments FChatSettings F : clear implicits.
Arguments UChatSubsystem F : clear implicits.
Arguments UChatComponent F : clear implicits.
Arguments Engine F : clear implicits.
Arguments UWorld F : clear implicits.
Arguments FVector F : clear implicits.
Arguments FLinearColor F : clear implicits.
Arguments RPC F : clear implicits.
Arguments UIEvent F : clear implicits.

(** ** Runs of the authority and reading the history *)

(** The last [n] elements of a list, in the list's order. *)
Definition lastn {T} (n : nat) (l : list T) : list T := drop (length l - n) l.

Section Runs.
Context {F : Type} `{Float : FloatOps F}.

(** Submissions handled one after the other, each under the engine state of
    its arrival; the result lists the accepted messages in that order. *)
Fixpoint SubmitAll (reqs : list (Engine F * FChatMessage F))
    : Auth (list (FChatMessage F)) :=
  match reqs with
  | [] => mret []
  | (E, Message) :: rest =>
      v ← BroadcastMessage E Message;
      acc ← SubmitAll rest;
      mret (if v is Accepted then Message :: acc else acc)
  end.

(** How many [ClientReceiveMessage] calls of a trace address a component
    owned by player [p]. *)
Definition DeliveriesTo (E : Engine F) (p : APlayerState) (out : list (RPC F)) : nat :=
  length (List.filter
            (λ rpc, match rpc with
                    | ClientReceiveMessage c _ =>
                        bool_decide (GetOwner E c = Some (PlayerStateActor p))
                    | _ => false
                    end) out).

(** The whisper rule in the specification's words: of an accepted whisper,
    the sender and the target receive one delivery each and every other
    player receives none. *)
Definition WhisperReachesSenderAndTargetOnce (E : Engine F)
    (Sys : UChatSubsystem F) (Message : FChatMessage F) : Prop :=
  ∀ Sys' out s t,
    BroadcastMessage E Message Sys = Some (Accepted, Sys', out) →
    Channel Message = EChatChannel.Whisper →
    Sender Message = Some s → WhisperTarget Message = Some t →
    ∀ p, DeliveriesTo E p out = if bool_decide (p = s ∨ p = t) then 1%nat else 0%nat.

(** The client rule in the specification's words: a send whose local
    precheck fails raises a failure notification and is not forwarded. *)
Definition LocalFailureIsNotified (E : Engine F) (Subsystem : option (UChatSubsystem F))
    (self : ChatComponentId) (This : UChatComponent F)
    (Content : FString) (Channel : EChatChannel.t) : Prop :=
  ∀ reason This1,
    ValidateMessageLocally E Subsystem This Content = Some (Rejected reason, This1) →
    ∃ This2 reason',
      SendChatMessage E Subsystem self This Content Channel =
        Some (This2, [ClientNotifyMessageFailed self reason']).
End Runs.

(** ** The rest of the subsystem and sequences of calls *)

Section Calls.
Context {F : Type} `{Float : FloatOps F}.

(** [UChatSubsystem::Deinitialize]. *)
Definition Deinitialize : @Auth F unit := λ Sys,
  Some (tt,
        {| ChatSettings := ChatSettings Sys; MessageHistory := [];
           RegisteredComponents := []; PlayerMessageTimes := ∅ |},
        []).

(** The calls the subsystem takes from the game, and a sequence of them run
    in order, each under the engine state of its time. *)
Inductive AuthorityCall :=
  | CallBroadcastMessage (E : Engine F) (Message : FChatMessage F)
  | CallBroadcastSystemMessage (E : Engine F) (Content : FString)
      (Color : FLinearColor F)
  | CallClearMessageHistory
  | CallSetChatSettings (E : Engine F) (NewSettings : FChatSettings F)
  | CallRegisterChatComponent (Component : option ChatComponentId)
  | CallUnregisterChatComponent (E : Engine F) (Component : option ChatComponentId)
  | CallDeinitialize.

Definition RunCall (call : AuthorityCall) : @Auth F unit :=
  match call with
  | CallBroadcastMessage E Message => BroadcastMessage E Message;; mret tt
  | CallBroadcastSystemMessage E Content Color => BroadcastSystemMessage E Content Color
  | CallClearMessageHistory => ClearMessageHistory
  | CallSetChatSettings E NewSettings => SetChatSettings E NewSettings
  | CallRegisterChatComponent Component => RegisterChatComponent Component
  | CallUnregisterChatComponent E Component => UnregisterChatComponent E Component
  | CallDeinitialize => Deinitialize
  end.

Fixpoint RunCalls (calls : list AuthorityCall) : @Auth F unit :=
  match calls with
  | [] => mret tt
  | call :: rest => RunCall call;; RunCalls rest
  end.

(** The mute calls a component takes from its user interface, in order. *)
Inductive MuteCall :=
  | CallMutePlayer (PlayerToMute : option APlayerState)
  | CallUnmutePlayer (PlayerToUnmute : option APlayerState)
  | CallClearMutedPlayers.

Definition RunMuteCall (E : Engine F) (self : ChatComponentId)
    (This : UChatComponent F) (call : MuteCall) : UChatComponent F :=
  match call with
  | CallMutePlayer p => MutePlayer E self This p
  | CallUnmutePlayer p => UnmutePlayer This p
  | CallClearMutedPlayers => ClearMutedPlayers This
  end.

Definition RunMuteCalls (E : Engine F) (self : ChatComponentId)
    (calls : list MuteCall) (This : UChatComponent F) : UChatComponent F :=
  foldl (RunMuteCall E self) This calls.

End Calls.

(** ** Exact arithmetic on rationals, for running the model *)

(** [%.1f] on a rational: the nearest tenth, halves upwards. *)
Definition QPrintf_1f (q : Q) : FString :=
  let tenths := Qfloor (Qplus (Qmult q (10 # 1)) (1 # 2)) in
  (if bool_decide (tenths < 0) then "-" else "")
    +:+ pretty (Z.abs tenths / 10) +:+ "." +:+ pretty (Z.abs tenths mod 10).

#[global] Instance Q_FloatOps : FloatOps Q := {|
  fzero := 0%Q;
  fone := 1%Q;
  fadd a b := Qred (a + b);
  fsub a b := Qred (a - b);
  fmul a b := Qred (a * b);
  fltb a b := negb (Qle_bool b a);
  fleb a b := Qle_bool a b;
  Printf_1f := QPrintf_1f;
|}.

Module Sample.
Local Open Scope positive_scope.

(** Three players own components 1, 2, 3; component 4 hangs on another
    actor and component 5 has no owner; one registered pointer is null.
    Players 11 and 12 have pawns 3 apart, player 13 has none, and player 14
    has a pawn but no component. *)
Definition owner (c : ChatComponentId) : option AActor :=
  match c with
  | 1 => Some (PlayerStateActor 11)
  | 2 => Some (PlayerStateActor 12)
  | 3 => Some (PlayerStateActor 13)
  | 4 => Some (OtherActor 99)
  | _ => None
  end.

Definition pawn (p : APlayerState) : option APawn :=
  match p with
  | 11 => Some 21
  | 12 => Some 22
  | 14 => Some 24
  | _ => None
  end.

Definition location (p : APawn) : FVector Q :=
  match p with
  | 22 => {| vX := 3%Q; vY := 0%Q; vZ := 0%Q |}
  | 24 => {| vX := 0%Q; vY := 4%Q; vZ := 0%Q |}
  | _ => {| vX := 0%Q; vY := 0%Q; vZ := 0%Q |}
  end.

Definition server (t : Q) : Engine Q :=
  {| GetWorld := Some {| GetAuthGameMode := true; GetTimeSeconds := t |};
     GetOwner := owner; GetPawn := pawn; GetActorLocation := location;
     GetPlayerName := λ _, "Player"; Now := 0%Z |}.

Definition settings (maxlen maxhist : Z) (radius : Q) : FChatSettings Q :=
  {| MaxMessageLength := maxlen; MessageCooldown := (1 # 2)%Q;
     MaxHistorySize := maxhist; bEnableProfanityFilter := false;
     ProximityChatRadius := radius; bAllowEmptyMessages := false |}.

Definition subsystem (s : FChatSettings Q) : UChatSubsystem Q :=
  {| ChatSettings := s; MessageHistory := [];
     RegisteredComponents := [Some 1; Some 2; Some 3; Some 4; None; Some 5];
     PlayerMessageTimes := ∅ |}.

Definition message (sender : option APlayerState) (text : FString)
    (channel : EChatChannel.t) (target : option APlayerState) : FChatMessage Q :=
  {| Sender := sender; SenderName := "Player"; Content := text;
     Channel := channel; Timestamp := 0%Z; MessageColor := White;
     WhisperTarget := target |}.

(** The same world seen from a client: no game mode there. *)
Definition client (t : Q) : Engine Q :=
  {| GetWorld := Some {| GetAuthGameMode := false; GetTimeSeconds := t |};
     GetOwner := owner; GetPawn := pawn; GetActorLocation := location;
     GetPlayerName := λ _, "Player"; Now := 0%Z |}.

(** 1025 characters. *)
Definition long_text : FString :=
  Nat.iter 1025 (String.append "a") "".

(** Component 2 has muted player 11; nobody else has muted anyone. *)
Definition clients (c : ChatComponentId) : UChatComponent Q :=
  match c with
  | 2 => {| MutedPlayers := [11]; LastMessageTime := 0%Q |}
  | _ => NewChatComponent
  end.

(** Alice and Bob stand 3 apart; Carol has no pawn; Dave has a pawn but no
    chat component. *)
Definition alice : APlayerState := 11.
Definition bob : APlayerState := 12.
Definition carol : APlayerState := 13.
Definition dave : APlayerState := 14.

Definition hello (sender : APlayerState) : FChatMessage Q :=
  message (Some sender) "hello" EChatChannel.Global None.

(** Alice whispering to [target], and Alice speaking to those nearby. *)
Definition whisper (target : APlayerState) : FChatMessage Q :=
  message (Some alice) "psst" EChatChannel.Whisper (Some target).
Definition nearby : FChatMessage Q :=
  message (Some alice) "hi" EChatChannel.Proximity None.

(** Maximum length 10, history bound 2, radius 3, cooldown 0.5 s. *)
Definition chat : UChatSubsystem Q := subsystem (settings 10 2 3%Q).

(** The sample subsystem after Alice's message at 0 s was accepted. *)
Definition chat_after_alice : UChatSubsystem Q :=
  set_PlayerMessageTimes {[ alice := 0%Q ]} (set_MessageHistory [hello alice] chat).

(** The sample subsystem with nothing registered yet. *)
Definition chat_unregistered : UChatSubsystem Q := set_RegisteredComponents [] chat.

(** A notice submitted through [BroadcastMessage] without a sender. *)
Definition notice : FChatMessage Q :=
  message None "notice" EChatChannel.System None.
End Sample.


(** * Properties *)

Section Properties.
Context {F : Type} `{Float : FloatOps F}.

Implicit Types (E : Engine F) (Sys : UChatSubsystem F) (Message : FChatMessage F).
Implicit Types (out : list (RPC F)) (p : APlayerState) (c : ChatComponentId).

(** A branch of a sending loop that issues no call contributes no member. *)
Ltac no_call H := by apply elem_of_nil in H.

(** ** Strings and lists *)

Lemma IsEmpty_true (s : FString) : IsEmpty s = true ↔ s = "".
Proof.
  unfold IsEmpty, Len. rewrite bool_decide_eq_true.
  destruct s; simpl; split; intros; try done; lia.
Qed.

Lemma IsEmpty_false (s : FString) : IsEmpty s = false ↔ s ≠ "".
Proof.
  rewrite <- IsEmpty_true. destruct (IsEmpty s); split; congruence.
Qed.

Lemma lastn_all {T} (n : nat) (l : list T) : (length l ≤ n)%nat → lastn n l = l.
Proof. intros Hn. unfold lastn. by replace (length l - n)%nat with 0%nat by lia. Qed.

Lemma lastn_cons {T} (n : nat) (x : T) (l : list T) :
  (n ≤ length l)%nat → lastn n (x :: l) = lastn n l.
Proof.
  intros Hn. unfold lastn. simpl.
  by replace (S (length l) - n)%nat with (S (length l - n)) by lia.
Qed.

Lemma lastn_length {T} (n : nat) (l : list T) :
  length (lastn n l) = (length l `min` n)%nat.
Proof. unfold lastn. rewrite length_drop. lia. Qed.

Lemma lastn_app {T} (n : nat) (l1 l2 : list T) :
  (n ≤ length l2)%nat → lastn n (l1 ++ l2) = lastn n l2.
Proof.
  intros Hn. unfold lastn. rewrite length_app, drop_app.
  rewrite drop_ge by lia. simpl. f_equal. lia.
Qed.

Lemma lastn_lastn_app {T} (n : nat) (l1 l2 : list T) :
  lastn n (lastn n l1 ++ l2) = lastn n (l1 ++ l2).
Proof.
  destruct (decide (n ≤ length l2)%nat) as [Hle | Hgt].
  - by rewrite !lastn_app.
  - unfold lastn. rewrite !length_app, length_drop.
    rewrite !drop_app_le by (rewrite ?length_drop; lia).
    rewrite drop_drop. do 2 f_equal. lia.
Qed.

Lemma lastn_suffix {T} (n : nat) (l : list T) : lastn n l `suffix_of` l.
Proof. apply suffix_drop. Qed.

(** The indexed copy loop of [GetRecentMessages] reads a segment. *)
Lemma copy_loop_segment {T} (l : list T) (start len : nat) :
  omap (λ i, l !! i) (seq start len) = take len (drop start l).
Proof.
  revert start. induction len as [| len IH]; intros start; simpl.
  - by rewrite take_0.
  - destruct (l !! start) as [x |] eqn:Hx.
    + rewrite (drop_S _ _ _ Hx). simpl. by rewrite IH.
    + apply lookup_ge_None in Hx. rewrite IH.
      rewrite !drop_ge by lia. by rewrite !take_nil.
Qed.

(** ** The history loop *)

Lemma TrimHistory_lastn (MaxSize : Z) (h : list (FChatMessage F)) :
  0 <= MaxSize → TrimHistory MaxSize h = Some (lastn (Z.to_nat MaxSize) h).
Proof.
  intros Hmax. induction h as [| x h IH]; simpl.
  - rewrite bool_decide_eq_false_2 by lia. done.
  - case_bool_decide as Hlen.
    + rewrite IH. f_equal. symmetry. apply lastn_cons. lia.
    + f_equal. symmetry. apply lastn_all. simpl. lia.
Qed.

(** Below zero the loop empties the array and then removes once more. *)
Lemma TrimHistory_negative (MaxSize : Z) (h : list (FChatMessage F)) :
  MaxSize < 0 → TrimHistory MaxSize h = None.
Proof.
  intros Hmax. induction h as [| x h IH]; simpl.
  - by rewrite bool_decide_eq_true_2 by lia.
  - by rewrite bool_decide_eq_true_2 by lia.
Qed.

Lemma TrimHistory_Some_nonneg (MaxSize : Z) (h h' : list (FChatMessage F)) :
  TrimHistory MaxSize h = Some h' → 0 <= MaxSize.
Proof.
  intros Hh. destruct (decide (0 <= MaxSize)) as [| Hneg]; [done |].
  rewrite TrimHistory_negative in Hh by lia. done.
Qed.

Lemma AddToHistory_eq Message Sys :
  0 <= MaxHistorySize (ChatSettings Sys) →
  AddToHistory Message Sys =
    Some (tt,
          set_MessageHistory
            (lastn (Z.to_nat (MaxHistorySize (ChatSettings Sys)))
                   (MessageHistory Sys ++ [Message])) Sys,
          []).
Proof. intros Hmax. unfold AddToHistory. by rewrite TrimHistory_lastn. Qed.

(** ** Rate limiting and the pipeline of [BroadcastMessage] *)

Lemma IsPlayerRateLimited_eq E W p Sys :
  GetWorld E = Some W →
  IsPlayerRateLimited E (Some p) Sys =
    let recorded :=
      set_PlayerMessageTimes (<[p := GetTimeSeconds W]> (PlayerMessageTimes Sys)) Sys in
    match PlayerMessageTimes Sys !! p with
    | Some last =>
        if fltb (fsub (GetTimeSeconds W) last) (MessageCooldown (ChatSettings Sys))
        then Some (Some ("Please wait "
                           +:+ Printf_1f (fsub (MessageCooldown (ChatSettings Sys))
                                               (fsub (GetTimeSeconds W) last))
                           +:+ " seconds before sending another message"),
                   Sys, [])
        else Some (None, recorded, [])
    | None => Some (None, recorded, [])
    end.
Proof. intros HW. unfold IsPlayerRateLimited. by rewrite HW. Qed.

(** The steps of [BroadcastMessage] on the server, one after the other. *)
Lemma BroadcastMessage_eq E W Message Sys :
  GetWorld E = Some W → GetAuthGameMode W = true →
  BroadcastMessage E Message Sys =
    match ValidateMessage Sys Message with
    | Rejected reason => Some (Rejected reason, Sys, [])
    | Accepted =>
        match (if Sender Message is Some _
               then IsPlayerRateLimited E (Sender Message) Sys
               else Some (None, Sys, [])) with
        | None => None
        | Some (Some reason, Sys1, out1) => Some (Rejected reason, Sys1, out1)
        | Some (None, Sys1, out1) =>
            match TrimHistory (MaxHistorySize (ChatSettings Sys1))
                              (MessageHistory Sys1 ++ [Message]) with
            | None => None
            | Some h =>
                Some (Accepted, set_MessageHistory h Sys1,
                      out1 ++ RouteMessage E (set_MessageHistory h Sys1) Message)
            end
        end
    end.
Proof.
  intros HW Hauth. unfold BroadcastMessage. rewrite HW, Hauth.
  cbv [negb mbind mret Auth_bind Auth_ret this call AddToHistory].
  destruct (ValidateMessage Sys Message); [| done].
  destruct (Sender Message) as [p |].
  - destruct (IsPlayerRateLimited E (Some p) Sys) as [[[[r |] Sys1] out1] |];
      [by rewrite app_nil_r | | done].
    destruct (TrimHistory (MaxHistorySize (ChatSettings Sys1))
                          (MessageHistory Sys1 ++ [Message])); [| done].
    simpl. by rewrite !app_nil_r.
  - destruct (TrimHistory (MaxHistorySize (ChatSettings Sys))
                          (MessageHistory Sys ++ [Message])); [| done].
    simpl. by rewrite !app_nil_r.
Qed.

(** A submission is accepted exactly when it arrives on the server, passes
    validation, its sender is out of cooldown and the history bound is not
    negative; the state and the calls it leaves are then determined. *)
Lemma BroadcastMessage_Accepted E Message Sys Sys' out :
  BroadcastMessage E Message Sys = Some (Accepted, Sys', out) ↔
  ∃ W, GetWorld E = Some W ∧ GetAuthGameMode W = true ∧
    ValidateMessage Sys Message = Accepted ∧
    (∀ p last, Sender Message = Some p → PlayerMessageTimes Sys !! p = Some last →
       fltb (fsub (GetTimeSeconds W) last) (MessageCooldown (ChatSettings Sys)) = false) ∧
    0 <= MaxHistorySize (ChatSettings Sys) ∧
    Sys' = {| ChatSettings := ChatSettings Sys;
              MessageHistory :=
                lastn (Z.to_nat (MaxHistorySize (ChatSettings Sys)))
                      (MessageHistory Sys ++ [Message]);
              RegisteredComponents := RegisteredComponents Sys;
              PlayerMessageTimes :=
                match Sender Message with
                | Some p => <[p := GetTimeSeconds W]> (PlayerMessageTimes Sys)
                | None => PlayerMessageTimes Sys
                end |} ∧
    out = RouteMessage E Sys' Message.
Proof.
  split.
  - intros Hrun.
    destruct (GetWorld E) as [W |] eqn:HW;
      [| unfold BroadcastMessage in Hrun; by rewrite HW in Hrun].
    destruct (GetAuthGameMode W) eqn:Hauth;
      [| unfold BroadcastMessage in Hrun; by rewrite HW, Hauth in Hrun].
    rewrite (BroadcastMessage_eq _ _ _ _ HW Hauth) in Hrun.
    exists W. split; [done |]. split; [done |].
    destruct (ValidateMessage Sys Message); [| done]. split; [done |].
    destruct (Sender Message) as [p |] eqn:Hp.
    + rewrite (IsPlayerRateLimited_eq _ _ _ _ HW) in Hrun. simpl in Hrun.
      destruct (PlayerMessageTimes Sys !! p) as [last |] eqn:Hlast.
      * destruct (fltb _ _) eqn:Hlt; [done |]. simpl in Hrun.
        destruct (TrimHistory _ _) as [h |] eqn:Hh; [| done].
        pose proof (TrimHistory_Some_nonneg _ _ _ Hh) as Hmax.
        rewrite TrimHistory_lastn in Hh by done.
        injection Hh as <-. injection Hrun as <- <-.
        split; [intros ?? [= <-]; congruence |]. done.
      * simpl in Hrun.
        destruct (TrimHistory _ _) as [h |] eqn:Hh; [| done].
        pose proof (TrimHistory_Some_nonneg _ _ _ Hh) as Hmax.
        rewrite TrimHistory_lastn in Hh by done.
        injection Hh as <-. injection Hrun as <- <-.
        split; [intros ?? [= <-]; congruence |]. done.
    + destruct (TrimHistory _ _) as [h |] eqn:Hh; [| done].
      pose proof (TrimHistory_Some_nonneg _ _ _ Hh) as Hmax.
      rewrite TrimHistory_lastn in Hh by done.
      injection Hh as <-. injection Hrun as <- <-.
      split; [done |]. done.
  - intros (W & HW & Hauth & Hvalid & Hfree & Hmax & -> & ->).
    rewrite (BroadcastMessage_eq _ _ _ _ HW Hauth), Hvalid.
    destruct (Sender Message) as [p |] eqn:Hp.
    + rewrite (IsPlayerRateLimited_eq _ _ _ _ HW). simpl.
      destruct (PlayerMessageTimes Sys !! p) as [last |] eqn:Hlast.
      * rewrite (Hfree p last) by done. simpl.
        by rewrite TrimHistory_lastn.
      * simpl. by rewrite TrimHistory_lastn.
    + by rewrite TrimHistory_lastn.
Qed.

(** ** Validation *)

(** C1: on the server, validation applies four checks in this order and the
    first failure decides the reason: content empty while empty messages are
    not allowed; content longer than [MaxMessageLength], the reason stating
    that maximum; no sender on a channel other than System; no target on the
    Whisper channel.  A message failing none of them passes, and a message
    failing one is rejected by [BroadcastMessage] with that reason, nothing
    stored and nothing sent. *)
Theorem ValidateMessage_first_failure_wins Sys Message :
  let s := ChatSettings Sys in
  let empty := Content Message = "" ∧ bAllowEmptyMessages s = false in
  let too_long := Len (Content Message) > MaxMessageLength s in
  let no_sender :=
    Channel Message ≠ EChatChannel.System ∧ Sender Message = None in
  let no_target :=
    Channel Message = EChatChannel.Whisper ∧ WhisperTarget Message = None in
  (empty → ValidateMessage Sys Message = Rejected "Message content is empty") ∧
  (¬ empty → too_long →
     ValidateMessage Sys Message =
       Rejected ("Message too long (max " +:+ Printf_d (MaxMessageLength s)
                   +:+ " characters)")) ∧
  (¬ empty → ¬ too_long → no_sender →
     ValidateMessage Sys Message = Rejected "Invalid sender") ∧
  (¬ empty → ¬ too_long → ¬ no_sender → no_target →
     ValidateMessage Sys Message = Rejected "Whisper requires a target player") ∧
  (¬ empty → ¬ too_long → ¬ no_sender → ¬ no_target →
     ValidateMessage Sys Message = Accepted) ∧
  (∀ E W reason,
     GetWorld E = Some W → GetAuthGameMode W = true →
     ValidateMessage Sys Message = Rejected reason →
     BroadcastMessage E Message Sys = Some (Rejected reason, Sys, [])).
Proof.
  intros s empty too_long no_sender no_target.
  split_and!; last first.
  { intros E W reason HW Hauth Hrej.
    by rewrite (BroadcastMessage_eq _ _ _ _ HW Hauth), Hrej. }
  all: unfold ValidateMessage; fold s.
  all: unfold empty, too_long, no_sender, no_target.
  all: destruct (IsEmpty (Content Message)) eqn:Hie;
    [apply IsEmpty_true in Hie | apply IsEmpty_false in Hie].
  all: destruct (bAllowEmptyMessages s); simpl.
  all: repeat case_bool_decide; simpl; intuition congruence.
Qed.

(** ** Reading the history *)

Lemma GetRecentMessages_whole Sys Count :
  Count <= 0 ∨ Count >= Z.of_nat (length (MessageHistory Sys)) →
  GetRecentMessages Sys Count = MessageHistory Sys.
Proof. intros Hc. unfold GetRecentMessages. by rewrite bool_decide_eq_true_2. Qed.

Lemma GetRecentMessages_tail Sys Count :
  0 < Count →
  GetRecentMessages Sys Count =
    lastn (Z.to_nat (Z.min Count (Z.of_nat (length (MessageHistory Sys)))))
          (MessageHistory Sys).
Proof.
  intros Hpos.
  destruct (decide (Count >= Z.of_nat (length (MessageHistory Sys)))) as [Hge | Hlt].
  - rewrite GetRecentMessages_whole by lia. symmetry. apply lastn_all. lia.
  - unfold GetRecentMessages. rewrite bool_decide_eq_false_2 by lia.
    rewrite copy_loop_segment, take_ge by (rewrite length_drop; lia).
    unfold lastn. f_equal. lia.
Qed.

(** C6: [GetRecentMessages Count] is the whole buffer when [Count <= 0] or
    [Count] is at least the number of stored messages, and for a positive
    [Count] it is the last [min Count size] stored messages; in every case
    what it returns is an end segment of the buffer, in the buffer's order
    (oldest first). *)
Theorem GetRecentMessages_last_min Sys Count :
  let h := MessageHistory Sys in
  let size := Z.of_nat (length h) in
  (Count <= 0 ∨ Count >= size → GetRecentMessages Sys Count = h) ∧
  (0 < Count → GetRecentMessages Sys Count = lastn (Z.to_nat (Z.min Count size)) h) ∧
  GetRecentMessages Sys Count `suffix_of` h.
Proof.
  intros h size. split_and!.
  - apply GetRecentMessages_whole.
  - apply GetRecentMessages_tail.
  - destruct (decide (0 < Count)) as [Hpos | Hneg].
    + rewrite GetRecentMessages_tail by done. apply lastn_suffix.
    + rewrite GetRecentMessages_whole by lia. done.
Qed.

(** ** The bounded history *)

(** Every submission returns when the bound is not negative; it leaves the
    settings alone, and appends to the history exactly when it accepts. *)
Lemma BroadcastMessage_total E Message Sys :
  0 <= MaxHistorySize (ChatSettings Sys) →
  ∃ v Sys' out,
    BroadcastMessage E Message Sys = Some (v, Sys', out) ∧
    ChatSettings Sys' = ChatSettings Sys ∧
    MessageHistory Sys' =
      if v is Accepted
      then lastn (Z.to_nat (MaxHistorySize (ChatSettings Sys)))
                 (MessageHistory Sys ++ [Message])
      else MessageHistory Sys.
Proof.
  intros Hmax.
  destruct (GetWorld E) as [W |] eqn:HW;
    [| unfold BroadcastMessage; rewrite HW; by eexists _, _, _].
  destruct (GetAuthGameMode W) eqn:Hauth;
    [| unfold BroadcastMessage; rewrite HW, Hauth; by eexists _, _, _].
  rewrite (BroadcastMessage_eq _ _ _ _ HW Hauth).
  destruct (ValidateMessage Sys Message); [| by eexists _, _, _].
  destruct (Sender Message) as [p |].
  - rewrite (IsPlayerRateLimited_eq _ _ _ _ HW). simpl.
    destruct (PlayerMessageTimes Sys !! p) as [last |].
    + destruct (fltb _ _); [by eexists _, _, _ |].
      simpl. rewrite TrimHistory_lastn by done. by eexists _, _, _.
    + simpl. rewrite TrimHistory_lastn by done. by eexists _, _, _.
  - rewrite TrimHistory_lastn by done. by eexists _, _, _.
Qed.

Lemma SubmitAll_history reqs : ∀ Sys,
  0 <= MaxHistorySize (ChatSettings Sys) →
  ∃ acc Sys' out,
    SubmitAll reqs Sys = Some (acc, Sys', out) ∧
    ChatSettings Sys' = ChatSettings Sys ∧
    acc `sublist_of` reqs.*2 ∧
    MessageHistory Sys' =
      if acc is [] then MessageHistory Sys
      else lastn (Z.to_nat (MaxHistorySize (ChatSettings Sys)))
                 (MessageHistory Sys ++ acc).
Proof.
  induction reqs as [| [E Message] reqs IH]; intros Sys Hmax.
  - exists [], Sys, []. done.
  - destruct (BroadcastMessage_total E Message Sys Hmax)
      as (v & Sys1 & out1 & Hrun & Hset1 & Hhist1).
    destruct (IH Sys1) as (acc & Sys2 & out2 & Hrest & Hset2 & Hsub & Hhist2);
      [by rewrite Hset1 |].
    simpl. unfold mbind, mret, Auth_bind, Auth_ret. rewrite Hrun, Hrest.
    eexists _, _, _. split; [done |]. split; [congruence |].
    rewrite Hset1 in Hhist2. rewrite Hhist2, Hhist1.
    destruct v.
    + split; [by apply sublist_skip |].
      destruct acc; [done |].
      by rewrite lastn_lastn_app, <- app_assoc.
    + split; [by apply sublist_cons |]. done.
Qed.

(** C3: with a history bound that is not negative, every append leaves at
    most [MaxHistorySize] messages and keeps a suffix of the old buffer
    followed by the new message, so what is evicted is the oldest; a run of
    submissions leaves the last [MaxHistorySize] of the old buffer followed
    by the accepted ones, and once more than [MaxHistorySize] were accepted
    [GetRecentMessages 0] is exactly the last [MaxHistorySize] accepted
    messages in the order of submission. *)
Theorem history_bounded_fifo Sys :
  0 <= MaxHistorySize (ChatSettings Sys) →
  let max := Z.to_nat (MaxHistorySize (ChatSettings Sys)) in
  (∀ Message, ∃ Sys',
     AddToHistory Message Sys = Some (tt, Sys', []) ∧
     MessageHistory Sys' = lastn max (MessageHistory Sys ++ [Message]) ∧
     (length (MessageHistory Sys') ≤ max)%nat ∧
     MessageHistory Sys' `suffix_of` MessageHistory Sys ++ [Message]) ∧
  (∀ reqs, ∃ acc Sys' out,
     SubmitAll reqs Sys = Some (acc, Sys', out) ∧
     acc `sublist_of` reqs.*2 ∧
     (acc ≠ [] →
        MessageHistory Sys' = lastn max (MessageHistory Sys ++ acc) ∧
        (length (MessageHistory Sys') ≤ max)%nat) ∧
     (Z.of_nat (length acc) > MaxHistorySize (ChatSettings Sys) →
        GetRecentMessages Sys' 0 = lastn max acc ∧
        length (GetRecentMessages Sys' 0) = max)).
Proof.
  intros Hmax max. split.
  - intros Message. eexists. split; [by apply AddToHistory_eq |]. simpl.
    split; [done |]. split; [| apply lastn_suffix].
    rewrite lastn_length. lia.
  - intros reqs.
    destruct (SubmitAll_history reqs Sys Hmax)
      as (acc & Sys' & out & Hrun & Hset & Hsub & Hhist).
    exists acc, Sys', out. split; [done |]. split; [done |]. split.
    + intros Hne. destruct acc; [done |]. rewrite Hhist.
      split; [done |]. rewrite lastn_length. lia.
    + intros Hmany.
      rewrite GetRecentMessages_whole by lia.
      destruct acc as [| Message acc]; [simpl in Hmany; lia |].
      rewrite Hhist. fold max. rewrite lastn_app by (unfold max; lia).
      split; [done |]. rewrite lastn_length. unfold max. lia.
Qed.

(** ** Rate limiting *)

Lemma ValidateMessage_settings Sys Sys' Message :
  ChatSettings Sys' = ChatSettings Sys →
  ValidateMessage Sys' Message = ValidateMessage Sys Message.
Proof. intros Hs. unfold ValidateMessage. by rewrite Hs. Qed.

(** C2: two submissions of one sender that pass validation arrive on the
    server at times [t1] and [t2], the first one out of cooldown.  The first
    is accepted and records [t1].  With [D = t2 - t1]: when [D < cooldown]
    the second is rejected, the reason carries [cooldown - D], and the state,
    so the recorded time too, stays as it was; otherwise the second is
    accepted and records [t2].  A sender with no recorded time is never
    rate limited. *)
Theorem rate_limit_by_cooldown E1 E2 W1 W2 Message1 Message2 p Sys :
  GetWorld E1 = Some W1 → GetAuthGameMode W1 = true →
  GetWorld E2 = Some W2 → GetAuthGameMode W2 = true →
  Sender Message1 = Some p → Sender Message2 = Some p →
  ValidateMessage Sys Message1 = Accepted →
  ValidateMessage Sys Message2 = Accepted →
  0 <= MaxHistorySize (ChatSettings Sys) →
  (∀ last, PlayerMessageTimes Sys !! p = Some last →
     fltb (fsub (GetTimeSeconds W1) last) (MessageCooldown (ChatSettings Sys)) = false) →
  let cooldown := MessageCooldown (ChatSettings Sys) in
  let D := fsub (GetTimeSeconds W2) (GetTimeSeconds W1) in
  (∃ Sys1 out1,
     BroadcastMessage E1 Message1 Sys = Some (Accepted, Sys1, out1) ∧
     PlayerMessageTimes Sys1 !! p = Some (GetTimeSeconds W1) ∧
     (fltb D cooldown = true →
        BroadcastMessage E2 Message2 Sys1 =
          Some (Rejected ("Please wait " +:+ Printf_1f (fsub cooldown D)
                            +:+ " seconds before sending another message"),
                Sys1, [])) ∧
     (fltb D cooldown = false →
        ∃ Sys2 out2,
          BroadcastMessage E2 Message2 Sys1 = Some (Accepted, Sys2, out2) ∧
          PlayerMessageTimes Sys2 !! p = Some (GetTimeSeconds W2))) ∧
  (∀ E0 Sys0 q, PlayerMessageTimes Sys0 !! q = None →
     ∃ Sys0', IsPlayerRateLimited E0 (Some q) Sys0 = Some (None, Sys0', [])).
Proof.
  intros HW1 Hauth1 HW2 Hauth2 Hp1 Hp2 Hv1 Hv2 Hmax Hfree cooldown D.
  split.
  - eexists _, _. split.
    { apply BroadcastMessage_Accepted. exists W1.
      split_and!; try done. intros q last. rewrite Hp1. intros [= <-]. apply Hfree. }
    rewrite Hp1. simpl. split; [apply lookup_insert_eq |].
    match goal with |- context [BroadcastMessage E2 Message2 ?S1] => set (Sys1 := S1) end.
    assert (Hv2' : ValidateMessage Sys1 Message2 = Accepted)
      by by rewrite (ValidateMessage_settings Sys).
    split.
    + intros Hlt.
      rewrite (BroadcastMessage_eq _ _ _ _ HW2 Hauth2), Hv2', Hp2.
      rewrite (IsPlayerRateLimited_eq _ _ _ _ HW2). simpl.
      rewrite lookup_insert_eq. fold cooldown D. by rewrite Hlt.
    + intros Hge. eexists _, _. split.
      { apply BroadcastMessage_Accepted. exists W2.
        split_and!; try done. simpl. intros q last. rewrite Hp2. intros [= <-].
        rewrite lookup_insert_eq. intros [= <-]. done. }
      rewrite Hp2. simpl. apply lookup_insert_eq.
  - intros E0 Sys0 q Hq. unfold IsPlayerRateLimited. rewrite Hq.
    destruct (GetWorld E0); by eexists.
Qed.

(** ** Routing *)

Lemma FirstOwnedBy_Some E p (cs : list (option ChatComponentId)) c :
  FirstOwnedBy E p cs = Some c →
  Some c ∈ cs ∧ GetOwner E c = Some (PlayerStateActor p).
Proof.
  induction cs as [| [c' |] cs IH]; simpl; [done | |].
  - case_bool_decide as Hown.
    + intros [= <-]. split; [apply elem_of_cons; by left | done].
    + intros [Hin ?]%IH. split; [apply elem_of_cons; by right | done].
  - intros [Hin ?]%IH. split; [apply elem_of_cons; by right | done].
Qed.

Lemma FirstOwnedBy_None E p (cs : list (option ChatComponentId)) c :
  FirstOwnedBy E p cs = None → Some c ∈ cs →
  GetOwner E c ≠ Some (PlayerStateActor p).
Proof.
  induction cs as [| [c' |] cs IH]; simpl.
  - by intros _ ?%elem_of_nil.
  - case_bool_decide as Hown; [done |].
    intros Hnone [[= ->] | Hin]%elem_of_cons; [done | by apply IH].
  - intros Hnone [[=] | Hin]%elem_of_cons. by apply IH.
Qed.

(** C4, as the code has it: of an accepted whisper every delivery goes to
    the component found for the target or to the one found for the sender
    (the first registered component owned by that player), whatever else is
    registered; a player who is neither receives none; and when sender and
    target differ, each of the two receives exactly one delivery if a
    component is registered for it, and none if not. *)
Theorem whisper_reaches_only_sender_and_target E Message Sys Sys' out s t :
  BroadcastMessage E Message Sys = Some (Accepted, Sys', out) →
  Channel Message = EChatChannel.Whisper →
  Sender Message = Some s → WhisperTarget Message = Some t →
  (∀ rpc, rpc ∈ out ↔
     ∃ c, rpc = ClientReceiveMessage c Message ∧
          (GetChatComponentForPlayer E Sys (Some t) = Some c ∨
           GetChatComponentForPlayer E Sys (Some s) = Some c)) ∧
  (∀ p, p ≠ s → p ≠ t → DeliveriesTo E p out = 0%nat) ∧
  (s ≠ t → ∀ p, p = s ∨ p = t →
     DeliveriesTo E p out =
       if GetChatComponentForPlayer E Sys (Some p) is Some _ then 1%nat else 0%nat).
Proof.
  intros (W & _ & _ & _ & _ & _ & -> & ->)%BroadcastMessage_Accepted Hch Hs Ht.
  unfold RouteMessage, SendToPlayer, GetChatComponentForPlayer, DeliveriesTo.
  rewrite Hch, Hs, Ht. simpl.
  destruct (FirstOwnedBy E t (RegisteredComponents Sys)) as [tc |] eqn:Htc;
    destruct (FirstOwnedBy E s (RegisteredComponents Sys)) as [sc |] eqn:Hsc.
  all: try (destruct (FirstOwnedBy_Some _ _ _ _ Htc) as [_ Hto]).
  all: try (destruct (FirstOwnedBy_Some _ _ _ _ Hsc) as [_ Hso]).
  all: simpl; rewrite ?Hto, ?Hso.
  all: split_and!.
  all: try (intros rpc; rewrite ?elem_of_cons, ?elem_of_nil; split;
            [ intros Hm; repeat (destruct Hm as [-> | Hm]); try done; eauto
            | intros (c & -> & [Hc | Hc]); simplify_eq; auto ]).
  all: try (intros p Hps Hpt; repeat case_bool_decide; simplify_eq; done).
  all: intros Hst p [-> | ->]; rewrite ?Htc, ?Hsc;
    repeat case_bool_decide; simplify_eq; done.
Qed.

(** C5: of an accepted Proximity message whose sender has a pawn, the
    deliveries are exactly those to the registered components owned by a
    player who has a pawn at squared distance [<=] the squared radius from
    the sender's pawn; a component whose owner is no player, or whose player
    has no pawn, gets none; and when the sender has no pawn nothing is
    delivered. *)
Theorem proximity_reaches_exactly_those_in_range E Message Sys Sys' out s :
  BroadcastMessage E Message Sys = Some (Accepted, Sys', out) →
  Channel Message = EChatChannel.Proximity →
  Sender Message = Some s →
  let radius := ProximityChatRadius (ChatSettings Sys) in
  (∀ SenderPawn, GetPawn E s = Some SenderPawn →
     ∀ rpc, rpc ∈ out ↔
       ∃ c PS Pawn,
         rpc = ClientReceiveMessage c Message ∧
         Some c ∈ RegisteredComponents Sys ∧
         Cast_APlayerState (GetOwner E c) = Some PS ∧
         GetPawn E PS = Some Pawn ∧
         fleb (DistSquared (GetActorLocation E SenderPawn) (GetActorLocation E Pawn))
              (fmul radius radius) = true) ∧
  (∀ c Message',
     (∀ PS, Cast_APlayerState (GetOwner E c) = Some PS → GetPawn E PS = None) →
     ClientReceiveMessage c Message' ∉ out) ∧
  (GetPawn E s = None → out = []).
Proof.
  intros (W & _ & _ & _ & _ & _ & -> & ->)%BroadcastMessage_Accepted Hch Hs radius.
  unfold RouteMessage, SendToProximity. rewrite Hch, Hs. simpl. fold radius.
  assert (Hin : ∀ SenderPawn rpc,
    rpc ∈ (RegisteredComponents Sys ≫= λ Component,
             match Component with
             | None => []
             | Some c =>
                 match Cast_APlayerState (GetOwner E c) with
                 | None => []
                 | Some PS =>
                     match GetPawn E PS with
                     | None => []
                     | Some Pawn =>
                         if fleb (DistSquared (GetActorLocation E SenderPawn)
                                              (GetActorLocation E Pawn))
                                 (fmul radius radius)
                         then [ClientReceiveMessage c Message] else []
                     end
                 end
             end) ↔
    ∃ c PS Pawn,
      rpc = ClientReceiveMessage c Message ∧
      Some c ∈ RegisteredComponents Sys ∧
      Cast_APlayerState (GetOwner E c) = Some PS ∧
      GetPawn E PS = Some Pawn ∧
      fleb (DistSquared (GetActorLocation E SenderPawn) (GetActorLocation E Pawn))
           (fmul radius radius) = true).
  { intros SenderPawn rpc. rewrite list_elem_of_bind. split.
    - intros ([c |] & Hrpc & Hc); [| no_call Hrpc].
      destruct (Cast_APlayerState (GetOwner E c)) as [PS |] eqn:HPS;
        [| no_call Hrpc].
      destruct (GetPawn E PS) as [Pawn |] eqn:HPawn;
        [| no_call Hrpc].
      destruct (fleb _ _) eqn:Hle; [| no_call Hrpc].
      apply list_elem_of_singleton in Hrpc as ->. by exists c, PS, Pawn.
    - intros (c & PS & Pawn & -> & Hc & HPS & HPawn & Hle).
      exists (Some c). rewrite HPS, HPawn, Hle.
      split; [by apply list_elem_of_singleton | done]. }
  split_and!.
  - intros SenderPawn HSP. rewrite HSP. apply Hin.
  - intros c Message' Hnopos Hrpc.
    destruct (GetPawn E s) as [SenderPawn |]; [| no_call Hrpc].
    apply Hin in Hrpc as (c' & PS & Pawn & [= <- <-] & _ & HPS & HPawn & _).
    by rewrite (Hnopos PS HPS) in HPawn.
  - by intros ->.
Qed.

Lemma SendToAllPlayers_elem E Sys Message rpc :
  rpc ∈ SendToAllPlayers E Sys Message ↔
  ∃ c, rpc = ClientReceiveMessage c Message ∧
       Some c ∈ RegisteredComponents Sys ∧ is_Some (GetOwner E c).
Proof.
  unfold SendToAllPlayers. rewrite list_elem_of_bind. split.
  - intros ([c |] & Hrpc & Hc); [| no_call Hrpc].
    destruct (GetOwner E c) eqn:Hown; [| no_call Hrpc].
    apply list_elem_of_singleton in Hrpc as ->. exists c. by rewrite Hown.
  - intros (c & -> & Hc & [a Hown]). exists (Some c). rewrite Hown.
    split; [by apply list_elem_of_singleton | done].
Qed.

(** Whatever the channel, routing only ever sends the routed message. *)
Lemma RouteMessage_sends_message E Sys Message rpc :
  rpc ∈ RouteMessage E Sys Message → ∃ c, rpc = ClientReceiveMessage c Message.
Proof.
  assert (Hall : rpc ∈ SendToAllPlayers E Sys Message →
                 ∃ c, rpc = ClientReceiveMessage c Message).
  { intros (c & -> & _)%SendToAllPlayers_elem. by exists c. }
  unfold RouteMessage. destruct (Channel Message); try done.
  - unfold SendToTeam. destruct (Sender Message); [done | by intros ?%elem_of_nil].
  - unfold SendToPlayer. destruct (WhisperTarget Message); [| by intros ?%elem_of_nil].
    destruct (GetChatComponentForPlayer E Sys (Some _)) as [tc |];
      destruct (Sender Message) as [s |];
      try destruct (GetChatComponentForPlayer E Sys (Some s)) as [sc |]; simpl.
    all: rewrite ?elem_of_cons, ?elem_of_nil.
    all: intros Hm; repeat (destruct Hm as [-> | Hm]); try done; eauto.
  - unfold SendToProximity. destruct (Sender Message) as [s |]; [| by intros ?%elem_of_nil].
    destruct (GetPawn E s); [| by intros ?%elem_of_nil].
    simpl. rewrite list_elem_of_bind.
    intros ([c |] & Hrpc & _); [| no_call Hrpc].
    destruct (Cast_APlayerState (GetOwner E c)) as [PS |];
      [| no_call Hrpc].
    destruct (GetPawn E PS); [| no_call Hrpc].
    destruct (fleb _ _); [| no_call Hrpc].
    apply list_elem_of_singleton in Hrpc as ->. by exists c.
Qed.

Lemma last_lastn_snoc {T} (n : nat) (l : list T) (x : T) :
  (1 ≤ n)%nat → last (lastn n (l ++ [x])) = Some x.
Proof.
  intros Hn. unfold lastn. rewrite length_app. simpl.
  rewrite drop_app_le by lia. apply last_snoc.
Qed.

(** ** Reception and muting *)

Lemma ClientReceiveMessage_muted (This : UChatComponent F) Message :
  ClientReceiveMessage_Implementation This Message =
    if IsPlayerMuted This (Sender Message) then []
    else [OnChatMessageReceived Message].
Proof.
  unfold ClientReceiveMessage_Implementation.
  destruct (Sender Message) as [p |]; [| done].
  by rewrite bool_decide_eq_true_2 by eauto.
Qed.

Lemma Deliver_elem (Clients : ChatComponentId → UChatComponent F) out c e :
  (c, e) ∈ Deliver Clients out ↔
  ∃ Message, e = OnChatMessageReceived Message ∧
             ClientReceiveMessage c Message ∈ out ∧
             IsPlayerMuted (Clients c) (Sender Message) = false.
Proof.
  unfold Deliver. rewrite list_elem_of_bind. split.
  - intros ([c' Message | |] & He & Hin); [| no_call He ..].
    rewrite ClientReceiveMessage_muted in He.
    destruct (IsPlayerMuted (Clients c') (Sender Message)) eqn:Hm;
      [no_call He |].
    apply list_elem_of_singleton in He as [= -> ->]. by exists Message.
  - intros (Message & -> & Hin & Hm). exists (ClientReceiveMessage c Message).
    rewrite ClientReceiveMessage_muted, Hm.
    split; [by apply list_elem_of_singleton | done].
Qed.

(** C7: at the component a message is delivered to, nothing is raised when
    the sender is in that component's muted list, and the reception event is
    raised when the sender is not in it or is absent.  For an accepted
    submission this does not touch the server: the message is the newest
    history entry (when the history holds at least one message) whatever
    the mute lists are, a component it is delivered to raises the event
    exactly when that component has not muted the sender, and a component
    that has muted the sender raises nothing for it. *)
Theorem muted_sender_is_dropped_locally
    (Clients : ChatComponentId → UChatComponent F) E Message Sys Sys' out :
  BroadcastMessage E Message Sys = Some (Accepted, Sys', out) →
  (∀ This p, Sender Message = Some p → p ∈ MutedPlayers This →
     ClientReceiveMessage_Implementation This Message = []) ∧
  (∀ This, (∀ p, Sender Message = Some p → p ∉ MutedPlayers This) →
     ClientReceiveMessage_Implementation This Message =
       [OnChatMessageReceived Message]) ∧
  (1 <= MaxHistorySize (ChatSettings Sys) →
     last (MessageHistory Sys') = Some Message) ∧
  (∀ c, ClientReceiveMessage c Message ∈ out →
     ((c, OnChatMessageReceived Message) ∈ Deliver Clients out ↔
      ∀ p, Sender Message = Some p → p ∉ MutedPlayers (Clients c))) ∧
  (∀ c e p, Sender Message = Some p → p ∈ MutedPlayers (Clients c) →
     (c, e) ∉ Deliver Clients out).
Proof.
  intros (W & _ & _ & _ & _ & Hmax & -> & ->)%BroadcastMessage_Accepted.
  assert (Hmuted : ∀ This : UChatComponent F,
            IsPlayerMuted This (Sender Message) = false ↔
            ∀ p, Sender Message = Some p → p ∉ MutedPlayers This).
  { intros This. unfold IsPlayerMuted. destruct (Sender Message) as [q |].
    - rewrite bool_decide_eq_false. split; [by intros ? p [= <-] | eauto].
    - split; [by intros _ p | done]. }
  split_and!.
  - intros This p Hp Hin. rewrite ClientReceiveMessage_muted.
    destruct (IsPlayerMuted This (Sender Message)) eqn:Hm; [done |].
    by destruct (proj1 (Hmuted This) Hm p Hp).
  - intros This Hnot. rewrite ClientReceiveMessage_muted.
    by rewrite (proj2 (Hmuted This) Hnot).
  - intros Hone. simpl. apply last_lastn_snoc. lia.
  - intros c Hc. rewrite Deliver_elem, <- Hmuted. split.
    + by intros (Message' & [= <-] & _ & Hm).
    + intros Hm. by exists Message.
  - intros c e p Hp Hin (Message' & -> & Hc & Hm)%Deliver_elem.
    apply RouteMessage_sends_message in Hc as (c' & [= _ ->]).
    by destruct (proj1 (Hmuted (Clients c)) Hm p Hp).
Qed.

(** ** The server call and its hard cap *)

(** A call within the cap is handed to the implementation, where the
    configured checks run. *)
Lemma ServerSendMessage_within_cap E self Content Channel WhisperTarget
    (Subsystem : option (UChatSubsystem F)) :
  Content ≠ "" → Len Content <= 1024 →
  ServerSendMessage_Receive E self Content Channel WhisperTarget Subsystem =
    ServerSendMessage_Implementation E self Content Channel WhisperTarget Subsystem.
Proof.
  intros Hne%IsEmpty_false Hlen.
  unfold ServerSendMessage_Receive, ServerSendMessage_Validate.
  by rewrite Hne, bool_decide_eq_true_2.
Qed.

(** C8: a client submission whose content is longer than 1024 characters
    fails [ServerSendMessage_Validate], whatever the settings of the
    subsystem are, and the call is dropped on arrival: the subsystem is left
    as it was (so no validation, no rate-limit record, no history entry) and
    no call is issued (no delivery, no failure notice). *)
Theorem oversized_submission_stops_at_boundary E self Content Channel
    WhisperTarget (Subsystem : option (UChatSubsystem F)) :
  Len Content > 1024 →
  ServerSendMessage_Validate Content Channel WhisperTarget = false ∧
  ServerSendMessage_Receive E self Content Channel WhisperTarget Subsystem =
    Some (Subsystem, []).
Proof.
  intros Hlen.
  assert (Hv : ServerSendMessage_Validate Content Channel WhisperTarget = false).
  { unfold ServerSendMessage_Validate.
    rewrite (bool_decide_eq_false_2 (Len Content <= 1024)) by lia.
    apply andb_false_r. }
  split; [done |]. unfold ServerSendMessage_Receive. by rewrite Hv.
Qed.

(** ** Client sends *)

(** C9, as the code has it: on a component owned by a player, with the
    subsystem and the world at hand, each of the three sends (a whisper with
    a target) does one of four things.  Empty content: nothing, neither a
    notification nor a call to the server.  Content longer than the
    configured maximum, or sent before the local cooldown has elapsed: one
    failure notification with the reason, and no call to the server.
    Otherwise: the call to the server, with the time of the send recorded. *)
Theorem client_send_after_local_precheck E W Sub self OwningPS
    (This : UChatComponent F) Content :
  GetOwningPlayerState E self = Some OwningPS →
  GetWorld E = Some W →
  let Settings := ChatSettings Sub in
  let elapsed := fsub (GetTimeSeconds W) (LastMessageTime This) in
  let each_send (r : EChatChannel.t → option APlayerState →
                     option (UChatComponent F * list (RPC F))) :=
    (∀ Channel,
       SendChatMessage E (Some Sub) self This Content Channel = r Channel None) ∧
    (∀ t, SendWhisper E (Some Sub) self This (Some t) Content =
            r EChatChannel.Whisper (Some t)) ∧
    SendProximityMessage E (Some Sub) self This Content =
      r EChatChannel.Proximity None in
  (Content = "" → each_send (λ _ _, Some (This, []))) ∧
  (Content ≠ "" → Len Content > MaxMessageLength Settings →
     each_send (λ _ _,
       Some (This,
             [ClientNotifyMessageFailed self
                ("Message too long (max " +:+ Printf_d (MaxMessageLength Settings)
                   +:+ " characters)")]))) ∧
  (Content ≠ "" → Len Content <= MaxMessageLength Settings →
   fltb elapsed (MessageCooldown Settings) = true →
     each_send (λ _ _,
       Some (This,
             [ClientNotifyMessageFailed self
                ("Please wait "
                   +:+ Printf_1f (fsub (MessageCooldown Settings) elapsed)
                   +:+ " seconds before sending another message")]))) ∧
  (Content ≠ "" → Len Content <= MaxMessageLength Settings →
   fltb elapsed (MessageCooldown Settings) = false →
     each_send (λ Channel Target,
       Some (set_LastMessageTime (GetTimeSeconds W) This,
             [ServerSendMessage self Content Channel Target]))).
Proof.
  intros Hown HW Settings elapsed each_send. unfold each_send.
  unfold SendChatMessage, SendWhisper, SendProximityMessage, ValidateMessageLocally.
  rewrite Hown, HW. fold Settings elapsed. simpl.
  split_and!.
  - intros He%IsEmpty_true. by rewrite He.
  - intros Hne%IsEmpty_false Hlong. rewrite Hne.
    by rewrite bool_decide_eq_true_2.
  - intros Hne%IsEmpty_false Hlen Hlt. rewrite Hne.
    rewrite bool_decide_eq_false_2 by lia. by rewrite Hlt.
  - intros Hne%IsEmpty_false Hlen Hge. rewrite Hne.
    rewrite bool_decide_eq_false_2 by lia. by rewrite Hge.
Qed.

(** ** System messages *)

(** C10: on the server, and with a history bound that is not negative,
    [BroadcastSystemMessage] returns for every content and colour without
    looking at the content: the message it builds has no sender, the name
    System and the System channel; it is appended to the history under the
    usual bound, so it is the newest entry whenever the history holds at
    least one message; and it is sent to every registered component that has
    an owner, and to nothing else.  Nothing else of the subsystem changes. *)
Theorem system_broadcast_is_not_validated E W Sys Content Color :
  GetWorld E = Some W → GetAuthGameMode W = true →
  0 <= MaxHistorySize (ChatSettings Sys) →
  let SystemMessage :=
    {| Sender := None; SenderName := "System"; Content := Content;
       Channel := EChatChannel.System; Timestamp := Now E;
       MessageColor := Color; WhisperTarget := None |} in
  ∃ Sys' out,
    BroadcastSystemMessage E Content Color Sys = Some (tt, Sys', out) ∧
    MessageHistory Sys' =
      lastn (Z.to_nat (MaxHistorySize (ChatSettings Sys)))
            (MessageHistory Sys ++ [SystemMessage]) ∧
    (1 <= MaxHistorySize (ChatSettings Sys) →
       last (MessageHistory Sys') = Some SystemMessage) ∧
    (∀ rpc, rpc ∈ out ↔
       ∃ c, rpc = ClientReceiveMessage c SystemMessage ∧
            Some c ∈ RegisteredComponents Sys ∧ is_Some (GetOwner E c)) ∧
    ChatSettings Sys' = ChatSettings Sys ∧
    RegisteredComponents Sys' = RegisteredComponents Sys ∧
    PlayerMessageTimes Sys' = PlayerMessageTimes Sys.
Proof.
  intros HW Hauth Hmax SystemMessage.
  unfold BroadcastSystemMessage. rewrite HW, Hauth. fold SystemMessage.
  cbv [negb mbind mret Auth_bind Auth_ret this call].
  rewrite AddToHistory_eq by done. simpl.
  eexists _, _. split; [done |]. simpl.
  split_and!; try done.
  - intros Hone. apply last_lastn_snoc. lia.
  - intros rpc. by rewrite SendToAllPlayers_elem.
Qed.

(** ** The registry of components *)

Lemma filter_other_fresh {T} `{EqDecision T} (x : T) (l : list T) :
  x ∉ l → filter (λ y, y ≠ x) l = l.
Proof.
  induction l as [| y l IH]; [done |].
  intros Hx. apply not_elem_of_cons in Hx as [Hne Hx].
  rewrite filter_cons_True by done. by rewrite IH.
Qed.

(** X1: registering a component adds it at the end of the registry unless it
    is there already, so a second registration changes nothing, the entries
    stay distinct and non-null, and nothing else of the subsystem moves;
    registering a null pointer does nothing. *)
Theorem RegisterChatComponent_once Sys c :
  ∃ Sys1,
    RegisterChatComponent (Some c) Sys = Some (tt, Sys1, []) ∧
    Some c ∈ RegisteredComponents Sys1 ∧
    RegisterChatComponent (Some c) Sys1 = Some (tt, Sys1, []) ∧
    RegisteredComponents Sys `prefix_of` RegisteredComponents Sys1 ∧
    (∀ x, x ∈ RegisteredComponents Sys1 ↔ x ∈ RegisteredComponents Sys ∨ x = Some c) ∧
    (NoDup (RegisteredComponents Sys) → NoDup (RegisteredComponents Sys1)) ∧
    ChatSettings Sys1 = ChatSettings Sys ∧
    MessageHistory Sys1 = MessageHistory Sys ∧
    PlayerMessageTimes Sys1 = PlayerMessageTimes Sys ∧
    RegisterChatComponent None Sys = Some (tt, Sys, []).
Proof.
  unfold RegisterChatComponent.
  destruct (decide (Some c ∈ RegisteredComponents Sys)) as [Hin | Hout].
  - exists Sys. rewrite bool_decide_eq_true_2 by done.
    split_and!; try done. intros x. split; [by left |]. by intros [? | ->].
  - rewrite bool_decide_eq_false_2 by done. eexists. split; [done |]. simpl.
    rewrite bool_decide_eq_true_2 by (apply elem_of_app; right; by left).
    split_and!; try done.
    + apply elem_of_app. right. by left.
    + by apply prefix_app_r.
    + intros x. rewrite elem_of_app, list_elem_of_singleton. done.
    + intros Hnd. apply NoDup_app. split_and!; [done | | apply NoDup_singleton].
      intros x Hx ->%list_elem_of_singleton. done.
Qed.

(** X2: unregistering a component removes every entry for it and keeps the
    other entries in their order; the rate-limit record of the player who
    owns it is removed and every other player's record is kept; history and
    settings are untouched.  Unregistering a null pointer does nothing. *)
Theorem UnregisterChatComponent_removes_and_purges E Sys c :
  ∃ Sys1,
    UnregisterChatComponent E (Some c) Sys = Some (tt, Sys1, []) ∧
    (Some c ∉ RegisteredComponents Sys1) ∧
    (∀ x, x ≠ Some c →
       (x ∈ RegisteredComponents Sys1 ↔ x ∈ RegisteredComponents Sys)) ∧
    RegisteredComponents Sys1 `sublist_of` RegisteredComponents Sys ∧
    (∀ p, GetOwningPlayerState E c = Some p → PlayerMessageTimes Sys1 !! p = None) ∧
    (∀ q, GetOwningPlayerState E c ≠ Some q →
       PlayerMessageTimes Sys1 !! q = PlayerMessageTimes Sys !! q) ∧
    ChatSettings Sys1 = ChatSettings Sys ∧
    MessageHistory Sys1 = MessageHistory Sys ∧
    UnregisterChatComponent E None Sys = Some (tt, Sys, []).
Proof.
  unfold UnregisterChatComponent, GetOwningPlayerState.
  assert (Hout : Some c ∉ filter (λ x, x ≠ Some c) (RegisteredComponents Sys)).
  { rewrite list_elem_of_filter. by intros [? _]. }
  assert (Hkeep : ∀ x, x ≠ Some c →
            x ∈ filter (λ x, x ≠ Some c) (RegisteredComponents Sys) ↔
            x ∈ RegisteredComponents Sys).
  { intros x Hx. rewrite list_elem_of_filter. tauto. }
  destruct (Cast_APlayerState (GetOwner E c)) as [PS |] eqn:HPS.
  - eexists. split; [done |]. simpl. split_and!; try done.
    + apply sublist_filter.
    + intros p [= <-]. apply lookup_delete_eq.
    + intros q Hq. apply lookup_delete_ne. congruence.
  - eexists. split; [done |]. simpl. split_and!; try done.
    apply sublist_filter.
Qed.

(** X3: registering a component that is not registered and then unregistering
    it gives back the registry as it was. *)
Theorem register_then_unregister_restores_registry E Sys c :
  Some c ∉ RegisteredComponents Sys →
  ∃ Sys1 Sys2,
    RegisterChatComponent (Some c) Sys = Some (tt, Sys1, []) ∧
    UnregisterChatComponent E (Some c) Sys1 = Some (tt, Sys2, []) ∧
    RegisteredComponents Sys2 = RegisteredComponents Sys ∧
    MessageHistory Sys2 = MessageHistory Sys ∧
    ChatSettings Sys2 = ChatSettings Sys.
Proof.
  intros Hfresh. unfold RegisterChatComponent, UnregisterChatComponent.
  rewrite bool_decide_eq_false_2 by done.
  assert (Hback : filter (λ x, x ≠ Some c) (RegisteredComponents Sys ++ [Some c]) =
                  RegisteredComponents Sys).
  { rewrite filter_app, filter_other_fresh by done.
    rewrite filter_cons_False by (by intros ?). by rewrite filter_nil, app_nil_r. }
  destruct (Cast_APlayerState (GetOwner E c)); by eexists _, _.
Qed.

(** X4: once the component owned by a player is unregistered, that player's
    next submission that passes validation is accepted on the server whatever
    time was recorded for the player before. *)
Theorem unregistering_clears_cooldown E E' W' Sys Message p c :
  GetOwningPlayerState E c = Some p →
  Sender Message = Some p →
  GetWorld E' = Some W' → GetAuthGameMode W' = true →
  ValidateMessage Sys Message = Accepted →
  0 <= MaxHistorySize (ChatSettings Sys) →
  ∃ Sys1 Sys2 out,
    UnregisterChatComponent E (Some c) Sys = Some (tt, Sys1, []) ∧
    BroadcastMessage E' Message Sys1 = Some (Accepted, Sys2, out) ∧
    PlayerMessageTimes Sys2 !! p = Some (GetTimeSeconds W').
Proof.
  intros Hown Hp HW Hauth Hvalid Hmax.
  unfold UnregisterChatComponent. unfold GetOwningPlayerState in Hown. rewrite Hown.
  eexists _, _, _. split; [done |]. split.
  - apply BroadcastMessage_Accepted. exists W'. split_and!; try done.
    simpl. intros q last. rewrite Hp. intros [= <-].
    by rewrite lookup_delete_eq.
  - simpl. rewrite Hp. apply lookup_insert_eq.
Qed.

(** ** What a submission changes *)

(** X5: away from the server (no world, or a world without a game mode)
    [BroadcastMessage] rejects every message, valid or not, with the reason of
    the missing authority, and [BroadcastSystemMessage] and [SetChatSettings]
    do nothing: the subsystem is unchanged and no call is issued. *)
Theorem off_server_nothing_changes E Sys :
  (GetWorld E = None ∨ ∃ W, GetWorld E = Some W ∧ GetAuthGameMode W = false) →
  (∀ Message, ∃ reason,
     BroadcastMessage E Message Sys = Some (Rejected reason, Sys, []) ∧
     (GetWorld E = None → reason = "Invalid world") ∧
     (is_Some (GetWorld E) → reason = "Only server can broadcast messages")) ∧
  (∀ Content Color, BroadcastSystemMessage E Content Color Sys = Some (tt, Sys, [])) ∧
  (∀ NewSettings, SetChatSettings E NewSettings Sys = Some (tt, Sys, [])).
Proof.
  unfold BroadcastMessage, BroadcastSystemMessage, SetChatSettings.
  intros [-> | (W & -> & ->)]; simpl.
  - split_and!; [| done | done]. intros _. eexists. split; [done |].
    split; [done |]. by intros [? ?].
  - split_and!; [| done | done]. intros _. eexists. split; [done |].
    split; [done | done].
Qed.

Lemma BroadcastMessage_Rejected_unchanged E Message Sys Sys' reason out :
  BroadcastMessage E Message Sys = Some (Rejected reason, Sys', out) →
  Sys' = Sys ∧ out = [].
Proof.
  intros Hrun.
  destruct (GetWorld E) as [W |] eqn:HW;
    [| unfold BroadcastMessage in Hrun; rewrite HW in Hrun; by injection Hrun as _ <- <-].
  destruct (GetAuthGameMode W) eqn:Hauth;
    [| unfold BroadcastMessage in Hrun; rewrite HW, Hauth in Hrun;
       by injection Hrun as _ <- <-].
  rewrite (BroadcastMessage_eq _ _ _ _ HW Hauth) in Hrun.
  destruct (ValidateMessage Sys Message); [| by injection Hrun as _ <- <-].
  destruct (Sender Message) as [p |].
  - rewrite (IsPlayerRateLimited_eq _ _ _ _ HW) in Hrun. simpl in Hrun.
    destruct (PlayerMessageTimes Sys !! p) as [last |].
    + destruct (fltb _ _); [by injection Hrun as _ <- <- |].
      simpl in Hrun. by destruct (TrimHistory _ _).
    + simpl in Hrun. by destruct (TrimHistory _ _).
  - by destruct (TrimHistory _ _).
Qed.

(** X6: a rejected submission has no effect at all: the subsystem is as
    before and the subsystem issues no call.  And there are four ways to be
    rejected, each with its reason: no world; not the server; a failed
    validation; a sender whose recorded time is less than the cooldown ago. *)
Theorem rejection_changes_nothing E Message Sys Sys' reason out :
  BroadcastMessage E Message Sys = Some (Rejected reason, Sys', out) →
  Sys' = Sys ∧ out = [] ∧
  ((GetWorld E = None ∧ reason = "Invalid world") ∨
   (∃ W, GetWorld E = Some W ∧ GetAuthGameMode W = false ∧
         reason = "Only server can broadcast messages") ∨
   (∃ W, GetWorld E = Some W ∧ GetAuthGameMode W = true ∧
         ValidateMessage Sys Message = Rejected reason) ∨
   (∃ W p last,
      GetWorld E = Some W ∧ GetAuthGameMode W = true ∧
      ValidateMessage Sys Message = Accepted ∧
      Sender Message = Some p ∧ PlayerMessageTimes Sys !! p = Some last ∧
      fltb (fsub (GetTimeSeconds W) last) (MessageCooldown (ChatSettings Sys)) = true ∧
      reason = "Please wait "
                 +:+ Printf_1f (fsub (MessageCooldown (ChatSettings Sys))
                                     (fsub (GetTimeSeconds W) last))
                 +:+ " seconds before sending another message")).
Proof.
  intros Hrun.
  destruct (BroadcastMessage_Rejected_unchanged _ _ _ _ _ _ Hrun) as [-> ->].
  split; [done |]. split; [done |].
  destruct (GetWorld E) as [W |] eqn:HW;
    [| unfold BroadcastMessage in Hrun; rewrite HW in Hrun;
       injection Hrun as <-; by left].
  destruct (GetAuthGameMode W) eqn:Hauth;
    [| unfold BroadcastMessage in Hrun; rewrite HW, Hauth in Hrun;
       injection Hrun as <-; right; left; by exists W].
  rewrite (BroadcastMessage_eq _ _ _ _ HW Hauth) in Hrun.
  destruct (ValidateMessage Sys Message) eqn:Hvalid;
    [| injection Hrun as <-; right; right; left; by exists W].
  right. right. right.
  destruct (Sender Message) as [p |] eqn:Hp.
  - rewrite (IsPlayerRateLimited_eq _ _ _ _ HW) in Hrun. simpl in Hrun.
    destruct (PlayerMessageTimes Sys !! p) as [last |] eqn:Hlast.
    + destruct (fltb _ _) eqn:Hlt.
      * injection Hrun as <-. by exists W, p, last.
      * simpl in Hrun. by destruct (TrimHistory _ _).
    + simpl in Hrun. by destruct (TrimHistory _ _).
  - by destruct (TrimHistory _ _).
Qed.

(** X7: whatever its outcome, a submission leaves the settings and the
    registry alone and changes no recorded time but its sender's; and the only
    calls the subsystem issues for it are deliveries of that very message. *)
Theorem submission_frame E Message Sys v Sys' out :
  BroadcastMessage E Message Sys = Some (v, Sys', out) →
  ChatSettings Sys' = ChatSettings Sys ∧
  RegisteredComponents Sys' = RegisteredComponents Sys ∧
  (∀ q, Sender Message ≠ Some q →
     PlayerMessageTimes Sys' !! q = PlayerMessageTimes Sys !! q) ∧
  (∀ rpc, rpc ∈ out → ∃ c, rpc = ClientReceiveMessage c Message).
Proof.
  intros Hrun. destruct v as [| reason].
  - apply BroadcastMessage_Accepted in Hrun
      as (W & _ & _ & _ & _ & _ & -> & ->). simpl.
    split_and!; try done.
    + intros q Hq. destruct (Sender Message) as [p |]; [| done].
      apply lookup_insert_ne. congruence.
    + intros rpc. apply RouteMessage_sends_message.
  - apply BroadcastMessage_Rejected_unchanged in Hrun as [-> ->].
    split_and!; try done. by intros rpc ?%elem_of_nil.
Qed.

(** The calls of [SendToAllPlayers] are as distinct as the registry entries. *)
Lemma SendToAllPlayers_NoDup E Sys Message :
  NoDup (RegisteredComponents Sys) → NoDup (SendToAllPlayers E Sys Message).
Proof.
  unfold SendToAllPlayers.
  induction (RegisteredComponents Sys) as [| x cs IH]; [constructor |].
  intros [Hx Hcs]%NoDup_cons. simpl.
  apply NoDup_app. split_and!; [| | by apply IH].
  - destruct x as [c |]; [| constructor].
    destruct (GetOwner E c); [apply NoDup_singleton | constructor].
  - intros rpc Hrpc (y & Hy & Hin)%list_elem_of_bind.
    destruct x as [c |]; [| no_call Hrpc].
    destruct (GetOwner E c); [| no_call Hrpc].
    apply list_elem_of_singleton in Hrpc as ->.
    destruct y as [c' |]; [| no_call Hy].
    destruct (GetOwner E c'); [| no_call Hy].
    apply list_elem_of_singleton in Hy as [= ->]. done.
Qed.

(** X8: an accepted message on the Global, Team, System or Custom channel is
    delivered to the registered components that have an owner and to nothing
    else, the sender's own component included; Team is not narrower than
    Global.  With distinct registry entries no component gets it twice. *)
Theorem broadcast_channels_reach_every_component E Message Sys Sys' out :
  BroadcastMessage E Message Sys = Some (Accepted, Sys', out) →
  Channel Message ≠ EChatChannel.Whisper →
  Channel Message ≠ EChatChannel.Proximity →
  out = SendToAllPlayers E Sys Message ∧
  (∀ rpc, rpc ∈ out ↔
     ∃ c, rpc = ClientReceiveMessage c Message ∧
          Some c ∈ RegisteredComponents Sys ∧ is_Some (GetOwner E c)) ∧
  (NoDup (RegisteredComponents Sys) → NoDup out).
Proof.
  intros (W & _ & _ & Hvalid & _ & _ & -> & ->)%BroadcastMessage_Accepted Hw Hp.
  assert (Hout : RouteMessage E
            {| ChatSettings := ChatSettings Sys;
               MessageHistory :=
                 lastn (Z.to_nat (MaxHistorySize (ChatSettings Sys)))
                       (MessageHistory Sys ++ [Message]);
               RegisteredComponents := RegisteredComponents Sys;
               PlayerMessageTimes :=
                 match Sender Message with
                 | Some p => <[p := GetTimeSeconds W]> (PlayerMessageTimes Sys)
                 | None => PlayerMessageTimes Sys
                 end |} Message = SendToAllPlayers E Sys Message).
  { unfold RouteMessage, SendToTeam.
    destruct (Channel Message) eqn:Hch; try done.
    destruct (Sender Message) eqn:Hs; [done |].
    unfold ValidateMessage in Hvalid. rewrite Hch, Hs in Hvalid.
    repeat case_match; done. }
  rewrite Hout. split; [done |]. split.
  - intros rpc. apply SendToAllPlayers_elem.
  - apply SendToAllPlayers_NoDup.
Qed.

(** X9: a submission without a sender is never rate limited: on the server,
    once it passes validation it is accepted whatever the recorded times are,
    and it records no time. *)
Theorem senderless_submission_is_not_rate_limited E W Message Sys :
  GetWorld E = Some W → GetAuthGameMode W = true →
  Sender Message = None →
  ValidateMessage Sys Message = Accepted →
  0 <= MaxHistorySize (ChatSettings Sys) →
  Channel Message = EChatChannel.System ∧
  ∃ Sys' out,
    BroadcastMessage E Message Sys = Some (Accepted, Sys', out) ∧
    PlayerMessageTimes Sys' = PlayerMessageTimes Sys.
Proof.
  intros HW Hauth Hs Hvalid Hmax. split.
  - unfold ValidateMessage in Hvalid. rewrite Hs in Hvalid.
    destruct (decide (Channel Message = EChatChannel.System)) as [| Hne]; [done |].
    rewrite (bool_decide_eq_true_2 (Channel Message ≠ _)) in Hvalid by done.
    rewrite (bool_decide_eq_true_2 (None = None)) in Hvalid by done.
    simpl in Hvalid. repeat case_match; done.
  - eexists _, _. split.
    + apply BroadcastMessage_Accepted. exists W. split_and!; try done.
      intros p last. by rewrite Hs.
    + by rewrite Hs.
Qed.

(** ** Muting *)

Lemma MutePlayer_muted E self (This : UChatComponent F) PlayerToMute q :
  q ∈ MutedPlayers (MutePlayer E self This PlayerToMute) ↔
  q ∈ MutedPlayers This ∨
  (PlayerToMute = Some q ∧ GetOwningPlayerState E self ≠ Some q).
Proof.
  unfold MutePlayer. destruct PlayerToMute as [p |];
    [| split; [by left | by intros [? | [? _]]]].
  case_bool_decide as Hself;
    [split; [by left | intros [? | [[= ->] ?]]; done] |].
  case_bool_decide as Hin;
    [split; [by left | intros [? | [[= ->] ?]]; done] |].
  simpl. rewrite elem_of_app, list_elem_of_singleton. split.
  - intros [? | ->]; [by left | right]. split; [done | congruence].
  - intros [? | [[= ->] _]]; [by left | by right].
Qed.

Lemma MutePlayer_NoDup E self (This : UChatComponent F) PlayerToMute :
  NoDup (MutedPlayers This) → NoDup (MutedPlayers (MutePlayer E self This PlayerToMute)).
Proof.
  intros Hnd. unfold MutePlayer. destruct PlayerToMute as [p |]; [| done].
  case_bool_decide; [done |]. case_bool_decide as Hin; [done |]. simpl.
  apply NoDup_app. split_and!; [done | | apply NoDup_singleton].
  by intros x Hx ->%list_elem_of_singleton.
Qed.

Lemma UnmutePlayer_muted (This : UChatComponent F) PlayerToUnmute q :
  q ∈ MutedPlayers (UnmutePlayer This PlayerToUnmute) ↔
  q ∈ MutedPlayers This ∧ PlayerToUnmute ≠ Some q.
Proof.
  unfold UnmutePlayer. destruct PlayerToUnmute as [p |];
    [| split; [done | by intros [? _]]].
  simpl. rewrite list_elem_of_filter. split.
  - intros [Hne ?]. split; [done | congruence].
  - intros [? Hne]. split; [congruence | done].
Qed.

Lemma IsPlayerMuted_true (This : UChatComponent F) q :
  IsPlayerMuted This (Some q) = true ↔ q ∈ MutedPlayers This.
Proof. unfold IsPlayerMuted. apply bool_decide_eq_true. Qed.

Lemma IsPlayerMuted_ext (This This' : UChatComponent F) q :
  (q ∈ MutedPlayers This' ↔ q ∈ MutedPlayers This) →
  IsPlayerMuted This' (Some q) = IsPlayerMuted This (Some q).
Proof. intros Hiff. unfold IsPlayerMuted. by apply bool_decide_ext. Qed.

(** X10: muting a player other than oneself makes [IsPlayerMuted] true for
    that player, unmuting makes it false again, neither changes the answer
    for any other player, muting twice is muting once, and a player who was
    not muted before is exactly as before after mute and unmute. *)
Theorem mute_then_unmute E self (This : UChatComponent F) p :
  GetOwningPlayerState E self ≠ Some p →
  let Muted := MutePlayer E self This (Some p) in
  IsPlayerMuted Muted (Some p) = true ∧
  IsPlayerMuted (UnmutePlayer Muted (Some p)) (Some p) = false ∧
  (∀ q, q ≠ p →
     IsPlayerMuted Muted (Some q) = IsPlayerMuted This (Some q) ∧
     IsPlayerMuted (UnmutePlayer This (Some p)) (Some q) = IsPlayerMuted This (Some q)) ∧
  MutePlayer E self Muted (Some p) = Muted ∧
  (p ∉ MutedPlayers This → UnmutePlayer Muted (Some p) = This).
Proof.
  intros Hself Muted. split_and!.
  - apply IsPlayerMuted_true, MutePlayer_muted. by right.
  - apply not_true_is_false. rewrite IsPlayerMuted_true, UnmutePlayer_muted.
    by intros [_ ?].
  - intros q Hq. split; apply IsPlayerMuted_ext.
    + unfold Muted. rewrite MutePlayer_muted. split; [| by left].
      intros [? | [[= ->] _]]; done.
    + rewrite UnmutePlayer_muted. split; [by intros [? _] |].
      intros ?. split; [done | congruence].
  - assert (Hin : p ∈ MutedPlayers Muted) by (apply MutePlayer_muted; by right).
    unfold MutePlayer at 1. case_bool_decide; [done |].
    by rewrite bool_decide_eq_true_2.
  - intros Hfresh. unfold Muted, MutePlayer, UnmutePlayer.
    rewrite bool_decide_eq_false_2 by congruence.
    rewrite bool_decide_eq_false_2 by done. simpl.
    rewrite filter_app, filter_other_fresh by done.
    rewrite filter_cons_False by (by intros ?).
    rewrite filter_nil, app_nil_r. by destruct This.
Qed.

(** X11: a component cannot be brought to mute its own player: starting with
    that player not muted and no duplicates in the list, after any sequence
    of mute, unmute and clear calls the player is still not in the list, the
    list still has no duplicates, and a message sent by that player raises the
    reception event at this component. *)
Theorem own_messages_are_always_shown E self (This : UChatComponent F) o calls Message :
  GetOwningPlayerState E self = Some o →
  o ∉ MutedPlayers This →
  NoDup (MutedPlayers This) →
  Sender Message = Some o →
  let This' := RunMuteCalls E self calls This in
  (o ∉ MutedPlayers This') ∧
  NoDup (MutedPlayers This') ∧
  ClientReceiveMessage_Implementation This' Message = [OnChatMessageReceived Message].
Proof.
  intros Hown Hfresh Hnd Hs This'.
  assert (Hinv : (o ∉ MutedPlayers This') ∧ NoDup (MutedPlayers This')).
  { unfold This', RunMuteCalls. clear This'.
    revert This Hfresh Hnd. induction calls as [| call calls IH]; intros This Hfresh Hnd.
    - done.
    - simpl. apply IH.
      + destruct call as [p | p |]; simpl.
        * rewrite MutePlayer_muted. intros [? | [_ ?]]; done.
        * rewrite UnmutePlayer_muted. by intros [? _].
        * by intros ?%elem_of_nil.
      + destruct call as [p | p |]; simpl.
        * by apply MutePlayer_NoDup.
        * unfold UnmutePlayer. destruct p; [| done]. simpl. by apply NoDup_filter.
        * constructor. }
  destruct Hinv as [Hnot Hnd']. split_and!; [done | done |].
  rewrite ClientReceiveMessage_muted, Hs.
  destruct (IsPlayerMuted This' (Some o)) eqn:Hm; [| done].
  by apply IsPlayerMuted_true in Hm.
Qed.

(** ** Looking a player's component up *)

Lemma FirstOwnedBy_first E p (cs : list (option ChatComponentId)) c :
  FirstOwnedBy E p cs = Some c →
  ∃ i, cs !! i = Some (Some c) ∧
       ∀ j c', (j < i)%nat → cs !! j = Some (Some c') →
               GetOwner E c' ≠ Some (PlayerStateActor p).
Proof.
  induction cs as [| x cs IH]; [done |]. simpl.
  destruct x as [c0 |].
  - case_bool_decide as Hown.
    + intros [= <-]. exists 0%nat. split; [done |]. intros j c' Hj. lia.
    + intros (i & Hi & Hbefore)%IH. exists (S i). split; [done |].
      intros [| j] c' Hj; simpl; [by intros [= <-] |].
      apply Hbefore. lia.
  - intros (i & Hi & Hbefore)%IH. exists (S i). split; [done |].
    intros [| j] c' Hj; simpl; [done |]. apply Hbefore. lia.
Qed.

(** X12: [GetChatComponentForPlayer] answers null for a null player; for a
    player it answers the first registry entry whose owner is that player (no
    earlier entry is owned by the player), and null exactly when no registered
    component is owned by the player. *)
Theorem GetChatComponentForPlayer_first_owned E Sys :
  GetChatComponentForPlayer E Sys None = None ∧
  (∀ p c, GetChatComponentForPlayer E Sys (Some p) = Some c →
     GetOwner E c = Some (PlayerStateActor p) ∧
     ∃ i, RegisteredComponents Sys !! i = Some (Some c) ∧
          ∀ j c', (j < i)%nat → RegisteredComponents Sys !! j = Some (Some c') →
                  GetOwner E c' ≠ Some (PlayerStateActor p)) ∧
  (∀ p, GetChatComponentForPlayer E Sys (Some p) = None ↔
     ∀ c, Some c ∈ RegisteredComponents Sys →
          GetOwner E c ≠ Some (PlayerStateActor p)).
Proof.
  split_and!; [done | |].
  - intros p c Hc. simpl in Hc. split.
    + by apply FirstOwnedBy_Some in Hc as [_ ?].
    + by apply FirstOwnedBy_first.
  - intros p. simpl. split.
    + intros Hnone c. by apply FirstOwnedBy_None.
    + intros Hnone.
      destruct (FirstOwnedBy E p (RegisteredComponents Sys)) as [c |] eqn:Hc; [| done].
      apply FirstOwnedBy_Some in Hc as [Hin Hown]. by destruct (Hnone c Hin).
Qed.

(** ** The server end of a send *)

(** X13: the message a server call submits carries the player who owns the
    component the call arrived on as its sender, with that player's name: any
    delivery the call causes, and any history entry it adds, is this message
    with the content, channel and target of the call. *)
Theorem server_stamps_the_sender E self o Content Channel WhisperTarget Sys result out :
  GetOwningPlayerState E self = Some o →
  ServerSendMessage_Implementation E self Content Channel WhisperTarget (Some Sys) =
    Some (result, out) →
  let Message :=
    {| Sender := Some o; SenderName := GetPlayerName E o; Content := Content;
       Channel := Channel; Timestamp := Now E; MessageColor := White;
       WhisperTarget := WhisperTarget |} in
  (∀ c Message', ClientReceiveMessage c Message' ∈ out → Message' = Message) ∧
  ∃ Sys', result = Some Sys' ∧
    ∀ Message', Message' ∈ MessageHistory Sys' →
      Message' ∈ MessageHistory Sys ∨ Message' = Message.
Proof.
  intros Hown Hrun Message. unfold ServerSendMessage_Implementation in Hrun.
  rewrite Hown in Hrun. simpl in Hrun. fold Message in Hrun.
  destruct (BroadcastMessage E Message Sys) as [[[[| reason] Sys1] out1] |] eqn:Hb;
    [| | done].
  - injection Hrun as <- <-.
    apply BroadcastMessage_Accepted in Hb as (W & _ & _ & _ & _ & _ & -> & ->).
    split.
    + intros c Message' (c' & [= _ ->])%RouteMessage_sends_message. done.
    + eexists. split; [done |]. simpl. intros Message' Hin.
      unfold lastn in Hin. apply subseteq_drop in Hin.
      apply elem_of_app in Hin as [? | ->%list_elem_of_singleton]; [by left | by right].
  - injection Hrun as <- <-.
    apply BroadcastMessage_Rejected_unchanged in Hb as [-> ->]. split.
    + intros c Message' [[] %elem_of_nil | Hin]%elem_of_app.
      by apply list_elem_of_singleton in Hin.
    + eexists. split; [done |]. intros Message' ?. by left.
Qed.

(** X14: the submitting client always learns the outcome of a server call.
    With no subsystem, or no owning player, the call issues one failure
    notice to the calling component and changes nothing.  Otherwise (history
    bound not negative) either the message is accepted and the call issues
    deliveries only, or it is rejected, the subsystem stays as it was, and the
    call issues exactly one failure notice, to the calling component, with
    the reason of the rejection. *)
Theorem server_call_outcome E self Content Channel WhisperTarget Sys :
  ServerSendMessage_Implementation E self Content Channel WhisperTarget None =
    Some (None, [ClientNotifyMessageFailed self "Chat subsystem not available"]) ∧
  (GetOwningPlayerState E self = None →
     ServerSendMessage_Implementation E self Content Channel WhisperTarget (Some Sys) =
       Some (Some Sys, [ClientNotifyMessageFailed self "Invalid player state"])) ∧
  (∀ o, GetOwningPlayerState E self = Some o →
     0 <= MaxHistorySize (ChatSettings Sys) →
     let Message :=
       {| Sender := Some o; SenderName := GetPlayerName E o; Content := Content;
          Channel := Channel; Timestamp := Now E; MessageColor := White;
          WhisperTarget := WhisperTarget |} in
     (∃ Sys' out,
        BroadcastMessage E Message Sys = Some (Accepted, Sys', out) ∧
        ServerSendMessage_Implementation E self Content Channel WhisperTarget (Some Sys) =
          Some (Some Sys', out) ∧
        ∀ rpc, rpc ∈ out → ∃ c, rpc = ClientReceiveMessage c Message) ∨
     (∃ reason,
        BroadcastMessage E Message Sys = Some (Rejected reason, Sys, []) ∧
        ServerSendMessage_Implementation E self Content Channel WhisperTarget (Some Sys) =
          Some (Some Sys, [ClientNotifyMessageFailed self reason]))).
Proof.
  split_and!.
  - done.
  - intros Hown. unfold ServerSendMessage_Implementation. by rewrite Hown.
  - intros o Hown Hmax Message.
    unfold ServerSendMessage_Implementation. rewrite Hown. simpl. fold Message.
    destruct (BroadcastMessage_total E Message Sys Hmax)
      as ([| reason] & Sys' & out & Hb & _ & _).
    + left. exists Sys', out. rewrite Hb. split_and!; [done | done |].
      apply BroadcastMessage_Accepted in Hb as (W & _ & _ & _ & _ & _ & -> & ->).
      intros rpc. apply RouteMessage_sends_message.
    + right. exists reason.
      pose proof (BroadcastMessage_Rejected_unchanged _ _ _ _ _ _ Hb) as [-> ->].
      by rewrite Hb.
Qed.

(** X15: [ServerSendMessage_Validate] holds exactly for a content of 1 to 1024
    characters, whatever the channel and target; so a call with empty content
    is dropped on arrival too, also under settings that allow empty
    messages. *)
Theorem ServerSendMessage_Validate_range Content Channel WhisperTarget :
  (ServerSendMessage_Validate Content Channel WhisperTarget = true ↔
     1 <= Len Content <= 1024) ∧
  (∀ E self (Subsystem : option (UChatSubsystem F)),
     Content = "" →
     ServerSendMessage_Receive E self Content Channel WhisperTarget Subsystem =
       Some (Subsystem, [])).
Proof.
  split.
  - unfold ServerSendMessage_Validate, IsEmpty.
    rewrite andb_true_iff, negb_true_iff, bool_decide_eq_false, bool_decide_eq_true.
    unfold Len. lia.
  - by intros E self Subsystem ->.
Qed.

(** X16: with the subsystem at hand and a configured maximum of at most 1024,
    every call to the server that one of the three client sends issues passes
    [ServerSendMessage_Validate], is issued by the sending component and
    carries the content given. *)
Theorem forwarded_calls_pass_server_validation E Sub self (This : UChatComponent F)
    Content :
  MaxMessageLength (ChatSettings Sub) <= 1024 →
  let passes (sent : option (UChatComponent F * list (RPC F))) :=
    ∀ This' out c Content' Channel' Target',
      sent = Some (This', out) →
      ServerSendMessage c Content' Channel' Target' ∈ out →
      c = self ∧ Content' = Content ∧
      ServerSendMessage_Validate Content' Channel' Target' = true in
  (∀ Channel, passes (SendChatMessage E (Some Sub) self This Content Channel)) ∧
  (∀ Target, passes (SendWhisper E (Some Sub) self This Target Content)) ∧
  passes (SendProximityMessage E (Some Sub) self This Content).
Proof.
  intros Hmax passes.
  assert (Hlocal : ∀ Channel Target,
    passes (match ValidateMessageLocally E (Some Sub) This Content with
            | None => None
            | Some (Rejected FailureReason, This1) =>
                Some (This1, [ClientNotifyMessageFailed self FailureReason])
            | Some (Accepted, This1) =>
                Some (This1, [ServerSendMessage self Content Channel Target])
            end)).
  { intros Channel Target This' out c Content' Channel' Target' Hrun Hin.
    unfold ValidateMessageLocally in Hrun.
    destruct (IsEmpty Content) eqn:He;
      [injection Hrun as <- <-; by apply list_elem_of_singleton in Hin |].
    case_bool_decide as Hlong;
      [injection Hrun as <- <-; by apply list_elem_of_singleton in Hin |].
    destruct (GetWorld E) as [W |]; [| done].
    destruct (fltb _ _);
      [injection Hrun as <- <-; by apply list_elem_of_singleton in Hin |].
    injection Hrun as <- <-. apply list_elem_of_singleton in Hin as [= -> -> -> ->].
    split_and!; [done | done |].
    unfold ServerSendMessage_Validate. rewrite He. simpl.
    apply bool_decide_eq_true. lia. }
  assert (Hnone : passes (Some (This, []))).
  { intros This' out c Content' Channel' Target' [= <- <-] Hin. no_call Hin. }
  split_and!.
  - intros Channel. unfold SendChatMessage.
    destruct (IsEmpty Content); [done |].
    destruct (GetOwningPlayerState E self); [apply Hlocal | done].
  - intros Target. unfold SendWhisper.
    destruct (negb (bool_decide (is_Some Target)) || IsEmpty Content); [done |].
    destruct (GetOwningPlayerState E self); [apply Hlocal | done].
  - unfold SendProximityMessage.
    destruct (IsEmpty Content); [done |].
    destruct (GetOwningPlayerState E self); [apply Hlocal | done].
Qed.

(** X17: the client's length check uses the configured maximum and the
    server's arrival check uses 1024.  When the configured maximum is above
    1024, a content longer than 1024 and within the maximum, sent out of
    cooldown, is forwarded by the client and then dropped by the server on
    arrival: nothing is stored or delivered and no failure notice is issued. *)
Theorem long_content_is_forwarded_then_dropped E W Sub self OwningPS
    (This : UChatComponent F) Content Channel :
  GetOwningPlayerState E self = Some OwningPS →
  GetWorld E = Some W →
  1024 < Len Content <= MaxMessageLength (ChatSettings Sub) →
  fltb (fsub (GetTimeSeconds W) (LastMessageTime This))
       (MessageCooldown (ChatSettings Sub)) = false →
  SendChatMessage E (Some Sub) self This Content Channel =
    Some (set_LastMessageTime (GetTimeSeconds W) This,
          [ServerSendMessage self Content Channel None]) ∧
  ∀ E' (Subsystem : option (UChatSubsystem F)),
    ServerSendMessage_Receive E' self Content Channel None Subsystem =
      Some (Subsystem, []).
Proof.
  intros Hown HW [Hlong Hmax] Hcool. split.
  - unfold SendChatMessage, ValidateMessageLocally.
    assert (He : IsEmpty Content = false).
    { unfold IsEmpty. apply bool_decide_eq_false. lia. }
    rewrite He, Hown, HW. simpl.
    rewrite bool_decide_eq_false_2 by lia. by rewrite Hcool.
  - intros E' Subsystem. unfold ServerSendMessage_Receive, ServerSendMessage_Validate.
    rewrite (bool_decide_eq_false_2 (Len Content <= 1024)) by lia.
    by rewrite andb_false_r.
Qed.

(** X18: when [GetChatSubsystem] finds no subsystem, the local precheck has
    only its empty-content test left: each of the three sends forwards any
    non-empty content, whatever its length and however soon after the last
    send, even without a world, and leaves the component as it was. *)
Theorem client_without_subsystem_forwards_unchecked E self OwningPS
    (This : UChatComponent F) Content :
  GetOwningPlayerState E self = Some OwningPS →
  Content ≠ "" →
  (∀ Channel,
     SendChatMessage E None self This Content Channel =
       Some (This, [ServerSendMessage self Content Channel None])) ∧
  (∀ t, SendWhisper E None self This (Some t) Content =
          Some (This, [ServerSendMessage self Content EChatChannel.Whisper (Some t)])) ∧
  SendProximityMessage E None self This Content =
    Some (This, [ServerSendMessage self Content EChatChannel.Proximity None]).
Proof.
  intros Hown Hne%IsEmpty_false.
  unfold SendChatMessage, SendWhisper, SendProximityMessage, ValidateMessageLocally.
  rewrite Hown, Hne. simpl. by split_and!.
Qed.

(** ** Settings, clearing and sequences of calls *)

(** X19: on the server [SetChatSettings] replaces the settings and touches
    nothing else, so a lowered history bound does not shorten the history at
    once: what [GetRecentMessages] returns is unchanged.  The next append
    brings the history under the new bound. *)
Theorem lowered_bound_applies_at_next_append E W NewSettings Sys Message :
  GetWorld E = Some W → GetAuthGameMode W = true →
  0 <= MaxHistorySize NewSettings →
  ∃ Sys1 Sys2,
    SetChatSettings E NewSettings Sys = Some (tt, Sys1, []) ∧
    ChatSettings Sys1 = NewSettings ∧
    MessageHistory Sys1 = MessageHistory Sys ∧
    RegisteredComponents Sys1 = RegisteredComponents Sys ∧
    PlayerMessageTimes Sys1 = PlayerMessageTimes Sys ∧
    (∀ Count, GetRecentMessages Sys1 Count = GetRecentMessages Sys Count) ∧
    AddToHistory Message Sys1 = Some (tt, Sys2, []) ∧
    MessageHistory Sys2 =
      lastn (Z.to_nat (MaxHistorySize NewSettings)) (MessageHistory Sys ++ [Message]) ∧
    Z.of_nat (length (MessageHistory Sys2)) <= MaxHistorySize NewSettings.
Proof.
  intros HW Hauth Hmax. unfold SetChatSettings. rewrite HW, Hauth. simpl.
  exists (set_ChatSettings NewSettings Sys),
         (set_MessageHistory
            (lastn (Z.to_nat (MaxHistorySize NewSettings))
                   (MessageHistory Sys ++ [Message]))
            (set_ChatSettings NewSettings Sys)).
  split_and!; try done.
  - exact (AddToHistory_eq Message (set_ChatSettings NewSettings Sys) Hmax).
  - simpl. rewrite lastn_length. lia.
Qed.

(** X20: [ClearMessageHistory], on any machine, empties the history, so
    [GetRecentMessages] returns nothing for every count, and keeps settings,
    registry and recorded times; after it, with a history bound that is not
    negative, a run of submissions leaves exactly the last [MaxHistorySize]
    messages accepted since the clearing. *)
Theorem history_restarts_after_clearing Sys :
  ∃ Sys0,
    ClearMessageHistory Sys = Some (tt, Sys0, []) ∧
    (∀ Count, GetRecentMessages Sys0 Count = []) ∧
    ChatSettings Sys0 = ChatSettings Sys ∧
    RegisteredComponents Sys0 = RegisteredComponents Sys ∧
    PlayerMessageTimes Sys0 = PlayerMessageTimes Sys ∧
    (0 <= MaxHistorySize (ChatSettings Sys) →
     ∀ reqs, ∃ acc Sys' out,
       SubmitAll reqs Sys0 = Some (acc, Sys', out) ∧
       GetRecentMessages Sys' 0 =
         lastn (Z.to_nat (MaxHistorySize (ChatSettings Sys))) acc).
Proof.
  eexists. split; [done |]. simpl. split_and!; try done.
  - intros Count. apply GetRecentMessages_whole. simpl. lia.
  - intros Hmax reqs.
    destruct (SubmitAll_history reqs (set_MessageHistory [] Sys) Hmax)
      as (acc & Sys' & out & Hrun & _ & _ & Hhist).
    exists acc, Sys', out. split; [done |].
    rewrite GetRecentMessages_whole by lia. rewrite Hhist. simpl.
    by destruct acc.
Qed.

Lemma BroadcastSystemMessage_registry E Content Color Sys Sys' out :
  BroadcastSystemMessage E Content Color Sys = Some (tt, Sys', out) →
  RegisteredComponents Sys' = RegisteredComponents Sys.
Proof.
  unfold BroadcastSystemMessage.
  destruct (GetWorld E) as [W |]; [| by intros [= <- _]].
  destruct (GetAuthGameMode W); simpl; [| by intros [= <- _]].
  cbv [mbind mret Auth_bind Auth_ret this call AddToHistory].
  destruct (TrimHistory _ _); [| done]. by intros [= <- _].
Qed.

(** X21: the registry stays well formed under every sequence of calls to the
    subsystem (submissions, system messages, clearing, new settings,
    registrations, unregistrations, shutdown): if its entries are distinct
    and none is null before, the same holds after. *)
Theorem registry_stays_well_formed calls : ∀ Sys Sys' out,
  RunCalls calls Sys = Some (tt, Sys', out) →
  NoDup (RegisteredComponents Sys) → None ∉ RegisteredComponents Sys →
  NoDup (RegisteredComponents Sys') ∧ None ∉ RegisteredComponents Sys'.
Proof.
  induction calls as [| call calls IH]; intros Sys Sys' out Hrun Hnd Hnull.
  - by injection Hrun as <- _.
  - simpl in Hrun. unfold mbind, Auth_bind in Hrun.
    destruct (RunCall call Sys) as [[[[] Sys1] out1] |] eqn:Hcall; [| done].
    destruct (RunCalls calls Sys1) as [[[[] Sys2] out2] |] eqn:Hrest; [| done].
    injection Hrun as <- _.
    assert (NoDup (RegisteredComponents Sys1) ∧ None ∉ RegisteredComponents Sys1)
      as [Hnd1 Hnull1]; [| by eapply IH].
    clear IH Hrest. destruct call; simpl in Hcall.
    + unfold mbind, mret, Auth_bind, Auth_ret in Hcall.
      destruct (BroadcastMessage E Message Sys) as [[[v Sys0] out0] |] eqn:Hb; [| done].
      injection Hcall as <- _. destruct v.
      * by apply BroadcastMessage_Accepted in Hb as (W & _ & _ & _ & _ & _ & -> & _).
      * by apply BroadcastMessage_Rejected_unchanged in Hb as [-> _].
    + by rewrite (BroadcastSystemMessage_registry _ _ _ _ _ _ Hcall).
    + by injection Hcall as <- _.
    + unfold SetChatSettings in Hcall. destruct (GetWorld E) as [W |];
        [| by injection Hcall as <- _].
      destruct (GetAuthGameMode W); by injection Hcall as <- _.
    + unfold RegisterChatComponent in Hcall.
      destruct Component as [c |]; [| by injection Hcall as <- _].
      case_bool_decide as Hin; injection Hcall as <- _; [done |]. simpl. split.
      * apply NoDup_app. split_and!; [done | | apply NoDup_singleton].
        by intros x Hx ->%list_elem_of_singleton.
      * by intros [? | [=]%list_elem_of_singleton]%elem_of_app.
    + unfold UnregisterChatComponent in Hcall.
      destruct Component as [c |]; [| by injection Hcall as <- _].
      destruct (Cast_APlayerState (GetOwner E c)); injection Hcall as <- _; simpl.
      * split; [by apply NoDup_filter |]. rewrite list_elem_of_filter. by intros [_ ?].
      * split; [by apply NoDup_filter |]. rewrite list_elem_of_filter. by intros [_ ?].
    + injection Hcall as <- _. simpl. split; [constructor | by intros ?%elem_of_nil].
Qed.

(** ** Client and server side by side *)

(** X22: on length the client's precheck and the server's validation agree
    when they read the same settings: a non-empty content longer than the
    configured maximum is refused by both, with the same reason text. *)
Theorem length_refusal_is_the_same_on_both_sides E Sub (This : UChatComponent F) Message :
  Content Message ≠ "" →
  Len (Content Message) > MaxMessageLength (ChatSettings Sub) →
  let reason :=
    "Message too long (max " +:+ Printf_d (MaxMessageLength (ChatSettings Sub))
      +:+ " characters)" in
  ValidateMessageLocally E (Some Sub) This (Content Message) =
    Some (Rejected reason, This) ∧
  ValidateMessage Sub Message = Rejected reason.
Proof.
  intros Hne%IsEmpty_false Hlong reason.
  unfold ValidateMessageLocally, ValidateMessage. rewrite Hne. simpl.
  by rewrite bool_decide_eq_true_2.
Qed.

(** X23: the client's cooldown is counted from the component's own
    [LastMessageTime], which starts at zero, and the server's from the time
    recorded for the player, which starts absent.  So while the world time
    minus zero is below the cooldown, a new component refuses its first send
    with a wait notice, although the server would accept that very message
    from a player with no recorded time. *)
Theorem first_send_waits_on_the_client_only E W E' W' Sub self o Content Channel Sys :
  GetOwningPlayerState E self = Some o →
  GetWorld E = Some W →
  Content ≠ "" → Len Content <= MaxMessageLength (ChatSettings Sub) →
  fltb (fsub (GetTimeSeconds W) fzero) (MessageCooldown (ChatSettings Sub)) = true →
  GetWorld E' = Some W' → GetAuthGameMode W' = true →
  PlayerMessageTimes Sys !! o = None →
  ValidateMessage Sys (MakeChatMessage E' (Some o) Content Channel) = Accepted →
  0 <= MaxHistorySize (ChatSettings Sys) →
  SendChatMessage E (Some Sub) self NewChatComponent Content Channel =
    Some (NewChatComponent,
          [ClientNotifyMessageFailed self
             ("Please wait "
                +:+ Printf_1f (fsub (MessageCooldown (ChatSettings Sub))
                                    (fsub (GetTimeSeconds W) fzero))
                +:+ " seconds before sending another message")]) ∧
  ∃ Sys' out,
    BroadcastMessage E' (MakeChatMessage E' (Some o) Content Channel) Sys =
      Some (Accepted, Sys', out).
Proof.
  intros Hown HW Hne%IsEmpty_false Hlen Hcool HW' Hauth Hfresh Hvalid Hmax. split.
  - unfold SendChatMessage, ValidateMessageLocally. rewrite Hne, Hown, HW. simpl.
    rewrite bool_decide_eq_false_2 by lia. by rewrite Hcool.
  - eexists _, _. apply BroadcastMessage_Accepted. exists W'.
    split_and!; try done. simpl. intros p last [= <-]. by rewrite Hfresh.
Qed.

(** ** Shutdown *)

Lemma RouteMessage_empty_registry E Sys Message :
  RegisteredComponents Sys = [] → RouteMessage E Sys Message = [].
Proof.
  intros Hreg.
  unfold RouteMessage, SendToTeam, SendToPlayer, SendToProximity, SendToAllPlayers,
    GetChatComponentForPlayer.
  rewrite Hreg. simpl. repeat case_match; done.
Qed.

(** X24: [Deinitialize] empties registry, history and recorded times and
    keeps the settings.  After it, on the server and with a history bound that
    is not negative, a message that passes validation is accepted whatever
    was recorded before, is delivered to nobody, and is all that
    [GetRecentMessages] can return. *)
Theorem after_shutdown_nothing_is_delivered E W Sys Message :
  GetWorld E = Some W → GetAuthGameMode W = true →
  ValidateMessage Sys Message = Accepted →
  0 <= MaxHistorySize (ChatSettings Sys) →
  ∃ Sys0 Sys',
    Deinitialize Sys = Some (tt, Sys0, []) ∧
    ChatSettings Sys0 = ChatSettings Sys ∧
    (∀ Count, GetRecentMessages Sys0 Count = []) ∧
    BroadcastMessage E Message Sys0 = Some (Accepted, Sys', []) ∧
    (∀ Count, GetRecentMessages Sys' Count `suffix_of` [Message]).
Proof.
  intros HW Hauth Hvalid Hmax. unfold Deinitialize.
  eexists _, _. split; [done |]. simpl. split_and!.
  - done.
  - intros Count. apply GetRecentMessages_whole. simpl. lia.
  - apply BroadcastMessage_Accepted. exists W. split_and!; try done.
    symmetry. by apply RouteMessage_empty_registry.
  - intros Count. simpl.
    destruct (decide (0 < Count)) as [Hpos | Hneg].
    + rewrite GetRecentMessages_tail by done. simpl.
      etrans; [apply lastn_suffix | apply lastn_suffix].
    + rewrite GetRecentMessages_whole by lia. simpl. apply lastn_suffix.
Qed.

End Properties.

(** * The properties on the sample world *)

(** Runs a submission of the sample world that is accepted, naming the state
    and the calls it leaves. *)
Ltac accepted_run run Sys' out Hrun :=
  destruct run as [[[[| ?] Sys'] out] |] eqn:Hrun;
  [| vm_compute in Hrun; discriminate Hrun ..].

Lemma ValidateMessage_first_failure_wins_witness :
  Len "hello world" > 10 ∧
  ValidateMessage Sample.chat
    (Sample.message (Some Sample.alice) "hello world" EChatChannel.Global None) =
    Rejected "Message too long (max 10 characters)" ∧
  ValidateMessage Sample.chat
    (Sample.message (Some Sample.alice) "psst" EChatChannel.Whisper None) =
    Rejected "Whisper requires a target player".
Proof.
  split; [reflexivity |]. split.
  - apply (ValidateMessage_first_failure_wins Sample.chat
             (Sample.message (Some Sample.alice) "hello world" EChatChannel.Global None)).
    + intros [He _]. discriminate He.
    + reflexivity.
  - apply (ValidateMessage_first_failure_wins Sample.chat
             (Sample.message (Some Sample.alice) "psst" EChatChannel.Whisper None)).
    + intros [He _]. discriminate He.
    + intros Hlong. discriminate Hlong.
    + intros [_ Hs]. discriminate Hs.
    + split; reflexivity.
Defined.

(** The scenario of the specification: cooldown 0.5 s; a submission at 0 s is
    accepted, one at 0.3 s is told to wait 0.2 s, one at 0.6 s is accepted. *)
Lemma rate_limit_by_cooldown_witness :
  ∃ Sys1 out1,
    BroadcastMessage (Sample.server 0%Q) (Sample.hello Sample.alice) Sample.chat =
      Some (Accepted, Sys1, out1) ∧
    BroadcastMessage (Sample.server (3 # 10)%Q) (Sample.hello Sample.alice) Sys1 =
      Some (Rejected "Please wait 0.2 seconds before sending another message",
            Sys1, []) ∧
    ∃ Sys2 out2,
      BroadcastMessage (Sample.server (6 # 10)%Q) (Sample.hello Sample.alice) Sys1 =
        Some (Accepted, Sys2, out2) ∧
      PlayerMessageTimes Sys2 !! Sample.alice = Some (6 # 10)%Q.
Proof.
  assert (Hfree : ∀ W1 : UWorld Q, ∀ last : Q,
            PlayerMessageTimes Sample.chat !! Sample.alice = Some last →
            fltb (fsub (GetTimeSeconds W1) last)
                 (MessageCooldown (ChatSettings Sample.chat)) = false).
  { intros W1 last Hlast. discriminate Hlast. }
  destruct (rate_limit_by_cooldown
              (Sample.server 0%Q) (Sample.server (3 # 10)%Q) _ _
              (Sample.hello Sample.alice) (Sample.hello Sample.alice)
              Sample.alice Sample.chat
              eq_refl eq_refl eq_refl eq_refl eq_refl eq_refl eq_refl eq_refl
              ltac:(discriminate) (Hfree _))
    as [(Sys1 & out1 & Hfirst & Htime & Hsoon & _) _].
  destruct (rate_limit_by_cooldown
              (Sample.server 0%Q) (Sample.server (6 # 10)%Q) _ _
              (Sample.hello Sample.alice) (Sample.hello Sample.alice)
              Sample.alice Sample.chat
              eq_refl eq_refl eq_refl eq_refl eq_refl eq_refl eq_refl eq_refl
              ltac:(discriminate) (Hfree _))
    as [(Sys1' & out1' & Hfirst' & _ & _ & Hlate) _].
  rewrite Hfirst in Hfirst'. injection Hfirst' as <- <-.
  exists Sys1, out1. split; [exact Hfirst |]. split.
  - apply Hsoon. reflexivity.
  - apply Hlate. reflexivity.
Defined.

Lemma history_bounded_fifo_witness :
  ∃ acc Sys' out,
    SubmitAll [(Sample.server 0%Q, Sample.hello Sample.alice);
               (Sample.server 0%Q, Sample.hello Sample.bob);
               (Sample.server 0%Q, Sample.hello Sample.carol)] Sample.chat =
      Some (acc, Sys', out) ∧
    acc = [Sample.hello Sample.alice; Sample.hello Sample.bob;
           Sample.hello Sample.carol] ∧
    GetRecentMessages Sys' 0 = [Sample.hello Sample.bob; Sample.hello Sample.carol].
Proof.
  destruct (history_bounded_fifo Sample.chat ltac:(discriminate)) as [_ Hruns].
  destruct (Hruns [(Sample.server 0%Q, Sample.hello Sample.alice);
                   (Sample.server 0%Q, Sample.hello Sample.bob);
                   (Sample.server 0%Q, Sample.hello Sample.carol)])
    as (acc & Sys' & out & Hrun & _ & _ & Hmany).
  exists acc, Sys', out. split; [exact Hrun |].
  assert (Hacc : acc = [Sample.hello Sample.alice; Sample.hello Sample.bob;
                        Sample.hello Sample.carol]).
  { vm_compute in Hrun. by injection Hrun as <- _ _. }
  split; [exact Hacc |].
  destruct Hmany as [-> _]; [by rewrite Hacc |].
  by rewrite Hacc.
Defined.

Lemma GetRecentMessages_last_min_witness :
  GetRecentMessages
    (set_MessageHistory [Sample.hello Sample.alice; Sample.hello Sample.bob;
                         Sample.hello Sample.carol] Sample.chat) 2 =
    [Sample.hello Sample.bob; Sample.hello Sample.carol] ∧
  GetRecentMessages
    (set_MessageHistory [Sample.hello Sample.alice; Sample.hello Sample.bob;
                         Sample.hello Sample.carol] Sample.chat) 0 =
    [Sample.hello Sample.alice; Sample.hello Sample.bob; Sample.hello Sample.carol].
Proof.
  pose proof (GetRecentMessages_last_min
                (set_MessageHistory [Sample.hello Sample.alice; Sample.hello Sample.bob;
                                     Sample.hello Sample.carol] Sample.chat)) as Hget.
  cbv zeta in Hget. split.
  - destruct (Hget 2) as (_ & Hlast & _). rewrite Hlast; reflexivity.
  - destruct (Hget 0) as (Hfull & _). rewrite Hfull; [reflexivity |].
    left. discriminate.
Defined.

(** Alice whispers to Dave, who has no chat component: the whisper is
    accepted and Dave receives nothing, so the rule in the specification's
    words does not hold. *)
Lemma whisper_to_unregistered_target_counterexample :
  ¬ WhisperReachesSenderAndTargetOnce (Sample.server 0%Q) Sample.chat
      (Sample.whisper Sample.dave).
Proof.
  intros Hrule.
  accepted_run
    (BroadcastMessage (Sample.server 0%Q) (Sample.whisper Sample.dave) Sample.chat)
    Sys' out Hrun.
  pose proof (Hrule Sys' out Sample.alice Sample.dave Hrun eq_refl eq_refl eq_refl
                Sample.dave) as Hdave.
  vm_compute in Hrun. injection Hrun as _ <-.
  vm_compute in Hdave. discriminate Hdave.
Qed.

(** Alice whispers to Bob among four registered components: one delivery to
    each of the two, none to Carol. *)
Lemma whisper_reaches_only_sender_and_target_witness :
  ∃ Sys' out,
    BroadcastMessage (Sample.server 0%Q) (Sample.whisper Sample.bob) Sample.chat =
      Some (Accepted, Sys', out) ∧
    DeliveriesTo (Sample.server 0%Q) Sample.alice out = 1%nat ∧
    DeliveriesTo (Sample.server 0%Q) Sample.bob out = 1%nat ∧
    DeliveriesTo (Sample.server 0%Q) Sample.carol out = 0%nat.
Proof.
  accepted_run
    (BroadcastMessage (Sample.server 0%Q) (Sample.whisper Sample.bob) Sample.chat)
    Sys' out Hrun.
  destruct (whisper_reaches_only_sender_and_target _ _ _ _ _
              Sample.alice Sample.bob Hrun eq_refl eq_refl eq_refl)
    as (_ & Hothers & Hboth).
  exists Sys', out. split; [reflexivity |].
  assert (Hne : Sample.alice ≠ Sample.bob) by discriminate.
  split; [| split].
  - rewrite (Hboth Hne Sample.alice); [reflexivity | by left].
  - rewrite (Hboth Hne Sample.bob); [reflexivity | by right].
  - apply Hothers; discriminate.
Defined.

(** A whisper to oneself is sent to one's own component twice. *)
Example self_whisper_is_delivered_twice :
  ∃ Sys' out,
    BroadcastMessage (Sample.server 0%Q) (Sample.whisper Sample.alice) Sample.chat =
      Some (Accepted, Sys', out) ∧
    DeliveriesTo (Sample.server 0%Q) Sample.alice out = 2%nat.
Proof.
  accepted_run
    (BroadcastMessage (Sample.server 0%Q) (Sample.whisper Sample.alice) Sample.chat)
    Sys' out Hrun.
  exists Sys', out. split; [reflexivity |].
  vm_compute in Hrun. by injection Hrun as _ <-.
Qed.

(** Alice speaks on the Proximity channel with radius 3: Bob, exactly 3 away,
    is reached; Carol, without a pawn, and the component owned by no player
    are not. *)
Lemma proximity_reaches_exactly_those_in_range_witness :
  ∃ Sys' out,
    BroadcastMessage (Sample.server 0%Q) Sample.nearby Sample.chat =
      Some (Accepted, Sys', out) ∧
    (ClientReceiveMessage 2%positive Sample.nearby ∈ out) ∧
    (ClientReceiveMessage 3%positive Sample.nearby ∉ out) ∧
    (ClientReceiveMessage 4%positive Sample.nearby ∉ out).
Proof.
  accepted_run
    (BroadcastMessage (Sample.server 0%Q) Sample.nearby Sample.chat)
    Sys' out Hrun.
  destruct (proximity_reaches_exactly_those_in_range _ _ _ _ _
              Sample.alice Hrun eq_refl eq_refl)
    as (Hin & Hnopos & _).
  exists Sys', out. split; [reflexivity |]. split; [| split].
  - apply (Hin 21%positive eq_refl).
    exists 2%positive, Sample.bob, 22%positive.
    split; [reflexivity |]. split; [| by repeat split].
    apply elem_of_cons. right. apply elem_of_cons. by left.
  - apply Hnopos. by intros PS [= <-].
  - apply Hnopos. intros PS HPS. discriminate HPS.
Defined.

(** Alice speaks on the Global channel; Bob's component has muted her.  The
    message is stored, Bob's component raises nothing, Alice's and Carol's
    raise the event. *)
Lemma muted_sender_is_dropped_locally_witness :
  ∃ Sys' out,
    BroadcastMessage (Sample.server 0%Q) (Sample.hello Sample.alice) Sample.chat =
      Some (Accepted, Sys', out) ∧
    last (MessageHistory Sys') = Some (Sample.hello Sample.alice) ∧
    ((2%positive, OnChatMessageReceived (Sample.hello Sample.alice))
       ∉ Deliver Sample.clients out) ∧
    ((3%positive, OnChatMessageReceived (Sample.hello Sample.alice))
       ∈ Deliver Sample.clients out).
Proof.
  accepted_run
    (BroadcastMessage (Sample.server 0%Q) (Sample.hello Sample.alice) Sample.chat)
    Sys' out Hrun.
  destruct (muted_sender_is_dropped_locally Sample.clients _ _ _ _ _ Hrun)
    as (_ & _ & Hstored & Hraised & Hdropped).
  exists Sys', out. split; [reflexivity |]. split; [| split].
  - apply Hstored. discriminate.
  - apply (Hdropped _ _ Sample.alice eq_refl).
    apply elem_of_cons. by left.
  - apply Hraised.
    + vm_compute in Hrun. injection Hrun as _ <-.
      apply elem_of_cons. right. apply elem_of_cons. right.
      apply elem_of_cons. by left.
    + intros p [= <-] Hin. by apply elem_of_nil in Hin.
Defined.

(** With a configured maximum of 5000, a content of 1025 characters would pass
    the configured check, and is dropped on arrival all the same. *)
Lemma oversized_submission_stops_at_boundary_witness :
  Len Sample.long_text > 1024 ∧
  ServerSendMessage_Receive (Sample.server 0%Q) 1%positive Sample.long_text
    EChatChannel.Global None
    (Some (Sample.subsystem (Sample.settings 5000 2 3%Q))) =
    Some (Some (Sample.subsystem (Sample.settings 5000 2 3%Q)), []).
Proof.
  assert (Hlen : Len Sample.long_text > 1024) by (vm_compute; reflexivity).
  split; [exact Hlen |].
  apply (oversized_submission_stops_at_boundary (Sample.server 0%Q) 1%positive
           Sample.long_text EChatChannel.Global None
           (Some (Sample.subsystem (Sample.settings 5000 2 3%Q))) Hlen).
Defined.

(** A send with empty content fails the local precheck and raises nothing. *)
Lemma empty_send_is_silent_counterexample :
  ¬ LocalFailureIsNotified (Sample.client 1%Q) (Some Sample.chat) 1%positive
      NewChatComponent "" EChatChannel.Global.
Proof.
  intros Hrule.
  destruct (Hrule "Message cannot be empty" NewChatComponent eq_refl)
    as (This2 & reason' & Hsend).
  vm_compute in Hsend. discriminate Hsend.
Qed.

(** On Alice's client, last send at 0 s, maximum 10, cooldown 0.5 s: at 1 s
    "hello" goes to the server and "hello world" raises a notification; at
    0.3 s "hello" raises the notification to wait 0.2 s. *)
Lemma client_send_after_local_precheck_witness :
  SendChatMessage (Sample.client 1%Q) (Some Sample.chat) 1%positive
    NewChatComponent "hello" EChatChannel.Global =
    Some (set_LastMessageTime 1%Q NewChatComponent,
          [ServerSendMessage 1%positive "hello" EChatChannel.Global None]) ∧
  SendWhisper (Sample.client 1%Q) (Some Sample.chat) 1%positive
    NewChatComponent (Some Sample.bob) "hello world" =
    Some (NewChatComponent,
          [ClientNotifyMessageFailed 1%positive "Message too long (max 10 characters)"]) ∧
  SendProximityMessage (Sample.client (3 # 10)%Q) (Some Sample.chat) 1%positive
    NewChatComponent "hello" =
    Some (NewChatComponent,
          [ClientNotifyMessageFailed 1%positive
             "Please wait 0.2 seconds before sending another message"]).
Proof.
  split; [| split].
  - destruct (client_send_after_local_precheck (Sample.client 1%Q) _ Sample.chat
                1%positive Sample.alice NewChatComponent "hello" eq_refl eq_refl)
      as (_ & _ & _ & Hforward).
    destruct Hforward as (Hsend & _ & _); [discriminate | discriminate | reflexivity |].
    apply Hsend.
  - destruct (client_send_after_local_precheck (Sample.client 1%Q) _ Sample.chat
                1%positive Sample.alice NewChatComponent "hello world" eq_refl eq_refl)
      as (_ & Hlong & _ & _).
    destruct Hlong as (_ & Hwhisper & _); [discriminate | reflexivity |].
    apply Hwhisper.
  - destruct (client_send_after_local_precheck (Sample.client (3 # 10)%Q) _ Sample.chat
                1%positive Sample.alice NewChatComponent "hello" eq_refl eq_refl)
      as (_ & _ & Hsoon & _).
    destruct Hsoon as (_ & _ & Hprox); [discriminate | discriminate | reflexivity |].
    apply Hprox.
Defined.

(** An empty system message, which validation would reject, is stored and
    sent to the four registered components that have an owner. *)
Lemma system_broadcast_is_not_validated_witness :
  ValidateMessage Sample.chat
    {| Sender := None; SenderName := "System"; Content := "";
       Channel := EChatChannel.System; Timestamp := 0%Z;
       MessageColor := Yellow; WhisperTarget := None |} =
    Rejected "Message content is empty" ∧
  ∃ Sys' out,
    BroadcastSystemMessage (Sample.server 0%Q) "" Yellow Sample.chat =
      Some (tt, Sys', out) ∧
    last (MessageHistory Sys') =
      Some {| Sender := None; SenderName := "System"; Content := "";
              Channel := EChatChannel.System; Timestamp := 0%Z;
              MessageColor := Yellow; WhisperTarget := None |} ∧
    length out = 4%nat.
Proof.
  split; [reflexivity |].
  destruct (system_broadcast_is_not_validated (Sample.server 0%Q) _ Sample.chat ""
              Yellow eq_refl eq_refl ltac:(discriminate))
    as (Sys' & out & Hrun & _ & Hlast & _).
  exists Sys', out. split; [exact Hrun |]. split.
  - apply Hlast. discriminate.
  - vm_compute in Hrun. by injection Hrun as _ <-.
Defined.

(** * Further properties on the sample world *)

Lemma register_then_unregister_restores_registry_witness :
  ∃ Sys1 Sys2,
    RegisterChatComponent (Some 7%positive) Sample.chat = Some (tt, Sys1, []) ∧
    UnregisterChatComponent (Sample.server 0%Q) (Some 7%positive) Sys1 =
      Some (tt, Sys2, []) ∧
    RegisteredComponents Sys2 = RegisteredComponents Sample.chat.
Proof.
  destruct (register_then_unregister_restores_registry (Sample.server 0%Q)
              Sample.chat 7%positive ltac:(compute_done))
    as (Sys1 & Sys2 & Hreg & Hunreg & Hsame & _).
  by exists Sys1, Sys2.
Defined.

(** Alice is in cooldown at 0.1 s; once her component is unregistered her
    message at 0.1 s is accepted. *)
Lemma unregistering_clears_cooldown_witness :
  (∃ reason,
     BroadcastMessage (Sample.server (1 # 10)%Q) (Sample.hello Sample.alice)
       Sample.chat_after_alice =
       Some (Rejected reason, Sample.chat_after_alice, [])) ∧
  ∃ Sys1 Sys2 out,
    UnregisterChatComponent (Sample.server (1 # 10)%Q) (Some 1%positive)
      Sample.chat_after_alice = Some (tt, Sys1, []) ∧
    BroadcastMessage (Sample.server (1 # 10)%Q) (Sample.hello Sample.alice) Sys1 =
      Some (Accepted, Sys2, out).
Proof.
  split; [by eexists |].
  destruct (unregistering_clears_cooldown (Sample.server (1 # 10)%Q)
              (Sample.server (1 # 10)%Q) _ Sample.chat_after_alice
              (Sample.hello Sample.alice) Sample.alice 1%positive
              eq_refl eq_refl eq_refl eq_refl eq_refl ltac:(discriminate))
    as (Sys1 & Sys2 & out & Hunreg & Hrun & _).
  by exists Sys1, Sys2, out.
Defined.

Lemma off_server_nothing_changes_witness :
  BroadcastMessage (Sample.client 0%Q) (Sample.hello Sample.alice) Sample.chat =
    Some (Rejected "Only server can broadcast messages", Sample.chat, []) ∧
  BroadcastSystemMessage (Sample.client 0%Q) "notice" Yellow Sample.chat =
    Some (tt, Sample.chat, []).
Proof.
  destruct (off_server_nothing_changes (Sample.client 0%Q) Sample.chat)
    as (Hsubmit & Hsystem & _).
  { right. by eexists. }
  split; [| apply Hsystem].
  destruct (Hsubmit (Sample.hello Sample.alice)) as (reason & Hrun & _ & Hreason).
  rewrite Hrun, Hreason; [done | by eexists].
Defined.

Lemma rejection_changes_nothing_witness :
  ∃ reason Sys' out,
    BroadcastMessage (Sample.server (1 # 10)%Q) (Sample.hello Sample.alice)
      Sample.chat_after_alice = Some (Rejected reason, Sys', out) ∧
    Sys' = Sample.chat_after_alice ∧ out = [].
Proof.
  destruct (BroadcastMessage (Sample.server (1 # 10)%Q) (Sample.hello Sample.alice)
              Sample.chat_after_alice)
    as [[[[| reason] Sys'] out] |] eqn:Hrun;
    [vm_compute in Hrun; discriminate Hrun | | vm_compute in Hrun; discriminate Hrun].
  exists reason, Sys', out. split; [reflexivity |].
  destruct (rejection_changes_nothing _ _ _ _ _ _ Hrun) as (? & ? & _). by split.
Defined.

Lemma submission_frame_witness :
  ∃ Sys' out,
    BroadcastMessage (Sample.server 0%Q) (Sample.hello Sample.alice) Sample.chat =
      Some (Accepted, Sys', out) ∧
    ChatSettings Sys' = ChatSettings Sample.chat ∧
    RegisteredComponents Sys' = RegisteredComponents Sample.chat ∧
    PlayerMessageTimes Sys' !! Sample.bob = None.
Proof.
  accepted_run
    (BroadcastMessage (Sample.server 0%Q) (Sample.hello Sample.alice) Sample.chat)
    Sys' out Hrun.
  destruct (submission_frame _ _ _ _ _ _ Hrun) as (Hset & Hreg & Htimes & _).
  exists Sys', out. split; [reflexivity |]. split; [exact Hset |].
  split; [exact Hreg |]. rewrite (Htimes Sample.bob); [reflexivity | discriminate].
Defined.

Lemma broadcast_channels_reach_every_component_witness :
  ∃ Sys' out,
    BroadcastMessage (Sample.server 0%Q) (Sample.hello Sample.alice) Sample.chat =
      Some (Accepted, Sys', out) ∧
    length out = 4%nat ∧ NoDup out.
Proof.
  accepted_run
    (BroadcastMessage (Sample.server 0%Q) (Sample.hello Sample.alice) Sample.chat)
    Sys' out Hrun.
  destruct (broadcast_channels_reach_every_component _ _ _ _ _ Hrun
              ltac:(discriminate) ltac:(discriminate))
    as (Hout & _ & Hnd).
  exists Sys', out. split; [reflexivity |]. split.
  - rewrite Hout. reflexivity.
  - apply Hnd. compute_done.
Defined.

(** A notice without a sender is accepted although Alice's time is recorded,
    and again at once. *)
Lemma senderless_submission_is_not_rate_limited_witness :
  ∃ Sys' out,
    BroadcastMessage (Sample.server 0%Q) Sample.notice Sample.chat_after_alice =
      Some (Accepted, Sys', out) ∧
    PlayerMessageTimes Sys' = PlayerMessageTimes Sample.chat_after_alice.
Proof.
  destruct (senderless_submission_is_not_rate_limited (Sample.server 0%Q) _
              Sample.notice Sample.chat_after_alice
              eq_refl eq_refl eq_refl eq_refl ltac:(discriminate))
    as (_ & Sys' & out & Hrun & Htimes).
  by exists Sys', out.
Defined.

(** On Alice's component: muting Bob, then unmuting him. *)
Lemma mute_then_unmute_witness :
  IsPlayerMuted
    (MutePlayer (Sample.client 0%Q) 1%positive NewChatComponent (Some Sample.bob))
    (Some Sample.bob) = true ∧
  UnmutePlayer
    (MutePlayer (Sample.client 0%Q) 1%positive NewChatComponent (Some Sample.bob))
    (Some Sample.bob) = NewChatComponent.
Proof.
  destruct (mute_then_unmute (Sample.client 0%Q) 1%positive NewChatComponent Sample.bob
              ltac:(discriminate))
    as (Hmuted & _ & _ & _ & Hback).
  split; [exact Hmuted |]. apply Hback. compute_done.
Defined.

(** Alice's component is asked to mute Alice, Bob and Carol, then to unmute
    Carol: Alice's own message is still shown there. *)
Lemma own_messages_are_always_shown_witness :
  ClientReceiveMessage_Implementation
    (RunMuteCalls (Sample.client 0%Q) 1%positive
       [CallMutePlayer (Some Sample.alice); CallMutePlayer (Some Sample.bob);
        CallMutePlayer (Some Sample.carol); CallUnmutePlayer (Some Sample.carol)]
       NewChatComponent)
    (Sample.hello Sample.alice) =
    [OnChatMessageReceived (Sample.hello Sample.alice)] ∧
  MutedPlayers
    (RunMuteCalls (Sample.client 0%Q) 1%positive
       [CallMutePlayer (Some Sample.alice); CallMutePlayer (Some Sample.bob);
        CallMutePlayer (Some Sample.carol); CallUnmutePlayer (Some Sample.carol)]
       NewChatComponent) = [Sample.bob].
Proof.
  split; [| reflexivity].
  apply (own_messages_are_always_shown (Sample.client 0%Q) 1%positive NewChatComponent
           Sample.alice _ (Sample.hello Sample.alice) eq_refl).
  - compute_done.
  - constructor.
  - reflexivity.
Defined.

(** A call arriving on Bob's component is stored under Bob's identity. *)
Lemma server_stamps_the_sender_witness :
  ∃ Sys' out,
    ServerSendMessage_Implementation (Sample.server 0%Q) 2%positive "hello"
      EChatChannel.Global None (Some Sample.chat) = Some (Some Sys', out) ∧
    ∀ Message, Message ∈ MessageHistory Sys' → Sender Message = Some Sample.bob.
Proof.
  destruct (ServerSendMessage_Implementation (Sample.server 0%Q) 2%positive "hello"
              EChatChannel.Global None (Some Sample.chat))
    as [[result out] |] eqn:Hrun; [| vm_compute in Hrun; discriminate Hrun].
  destruct (server_stamps_the_sender (Sample.server 0%Q) 2%positive Sample.bob "hello"
              EChatChannel.Global None Sample.chat result out eq_refl Hrun)
    as (_ & Sys' & -> & Hhist).
  exists Sys', out. split; [reflexivity |].
  intros Message [Hold | ->]%Hhist; [by apply elem_of_nil in Hold | reflexivity].
Defined.

Lemma forwarded_calls_pass_server_validation_witness :
  SendChatMessage (Sample.client 1%Q) (Some Sample.chat) 1%positive NewChatComponent
    "hello" EChatChannel.Global =
    Some (set_LastMessageTime 1%Q NewChatComponent,
          [ServerSendMessage 1%positive "hello" EChatChannel.Global None]) ∧
  ServerSendMessage_Validate "hello" EChatChannel.Global None = true.
Proof.
  split; [reflexivity |].
  destruct (forwarded_calls_pass_server_validation (Sample.client 1%Q) Sample.chat
              1%positive NewChatComponent "hello" ltac:(discriminate))
    as (Hsend & _ & _).
  eapply (Hsend EChatChannel.Global); [reflexivity |]. apply elem_of_cons. by left.
Defined.

(** With a configured maximum of 5000 the client forwards 1025 characters,
    and the server drops them without a word. *)
Lemma long_content_is_forwarded_then_dropped_witness :
  SendChatMessage (Sample.client 1%Q)
    (Some (Sample.subsystem (Sample.settings 5000 2 3%Q))) 1%positive NewChatComponent
    Sample.long_text EChatChannel.Global =
    Some (set_LastMessageTime 1%Q NewChatComponent,
          [ServerSendMessage 1%positive Sample.long_text EChatChannel.Global None]) ∧
  ServerSendMessage_Receive (Sample.server 1%Q) 1%positive Sample.long_text
    EChatChannel.Global None (Some (Sample.subsystem (Sample.settings 5000 2 3%Q))) =
    Some (Some (Sample.subsystem (Sample.settings 5000 2 3%Q)), []).
Proof.
  assert (Hlen : 1024 < Len Sample.long_text <= 5000) by (vm_compute; split; congruence).
  destruct (long_content_is_forwarded_then_dropped (Sample.client 1%Q) _
              (Sample.subsystem (Sample.settings 5000 2 3%Q)) 1%positive Sample.alice
              NewChatComponent Sample.long_text EChatChannel.Global
              eq_refl eq_refl Hlen)
    as [Hsend Hdrop]; [reflexivity |].
  split; [exact Hsend | apply Hdrop].
Defined.

Lemma client_without_subsystem_forwards_unchecked_witness :
  SendChatMessage (Sample.client 0%Q) None 1%positive NewChatComponent
    "hello world, at length" EChatChannel.Global =
    Some (NewChatComponent,
          [ServerSendMessage 1%positive "hello world, at length" EChatChannel.Global
             None]).
Proof.
  apply (client_without_subsystem_forwards_unchecked (Sample.client 0%Q) 1%positive
           Sample.alice NewChatComponent "hello world, at length" eq_refl).
  discriminate.
Defined.

(** Three stored messages, then a bound of 1: still three are read, and one
    after the next append. *)
Lemma lowered_bound_applies_at_next_append_witness :
  ∃ Sys1 Sys2,
    SetChatSettings (Sample.server 0%Q) (Sample.settings 10 1 3%Q)
      (set_MessageHistory [Sample.hello Sample.alice; Sample.hello Sample.bob;
                           Sample.hello Sample.carol] Sample.chat) =
      Some (tt, Sys1, []) ∧
    length (GetRecentMessages Sys1 0) = 3%nat ∧
    AddToHistory Sample.notice Sys1 = Some (tt, Sys2, []) ∧
    GetRecentMessages Sys2 0 = [Sample.notice].
Proof.
  destruct (lowered_bound_applies_at_next_append (Sample.server 0%Q) _
              (Sample.settings 10 1 3%Q)
              (set_MessageHistory [Sample.hello Sample.alice; Sample.hello Sample.bob;
                                   Sample.hello Sample.carol] Sample.chat)
              Sample.notice eq_refl eq_refl ltac:(discriminate))
    as (Sys1 & Sys2 & Hset & _ & _ & _ & _ & Hread & Hadd & Hhist & _).
  exists Sys1, Sys2. split; [exact Hset |]. split; [by rewrite Hread |].
  split; [exact Hadd |].
  unfold GetRecentMessages. rewrite Hhist. reflexivity.
Defined.

Lemma registry_stays_well_formed_witness :
  ∃ Sys' out,
    RunCalls [CallRegisterChatComponent (Some 1%positive);
              CallRegisterChatComponent None;
              CallRegisterChatComponent (Some 2%positive);
              CallRegisterChatComponent (Some 1%positive);
              CallBroadcastMessage (Sample.server 0%Q) (Sample.hello Sample.alice);
              CallUnregisterChatComponent (Sample.server 0%Q) (Some 1%positive)]
      Sample.chat_unregistered = Some (tt, Sys', out) ∧
    NoDup (RegisteredComponents Sys') ∧ (None ∉ RegisteredComponents Sys').
Proof.
  destruct (RunCalls _ Sample.chat_unregistered) as [[[[] Sys'] out] |] eqn:Hrun;
    [| vm_compute in Hrun; discriminate Hrun].
  exists Sys', out. split; [reflexivity |].
  apply (registry_stays_well_formed _ _ _ _ Hrun).
  - constructor.
  - by intros ?%elem_of_nil.
Defined.

Lemma length_refusal_is_the_same_on_both_sides_witness :
  ValidateMessageLocally (Sample.client 1%Q) (Some Sample.chat) NewChatComponent
    "hello world" =
    Some (Rejected "Message too long (max 10 characters)", NewChatComponent) ∧
  ValidateMessage Sample.chat
    (Sample.message (Some Sample.alice) "hello world" EChatChannel.Global None) =
    Rejected "Message too long (max 10 characters)".
Proof.
  apply (length_refusal_is_the_same_on_both_sides (Sample.client 1%Q) Sample.chat
           NewChatComponent
           (Sample.message (Some Sample.alice) "hello world" EChatChannel.Global None)).
  - discriminate.
  - reflexivity.
Defined.

(** At 0.3 s Alice's new component refuses her first send; the server would
    have accepted it. *)
Lemma first_send_waits_on_the_client_only_witness :
  SendChatMessage (Sample.client (3 # 10)%Q) (Some Sample.chat) 1%positive
    NewChatComponent "hello" EChatChannel.Global =
    Some (NewChatComponent,
          [ClientNotifyMessageFailed 1%positive
             "Please wait 0.2 seconds before sending another message"]) ∧
  ∃ Sys' out,
    BroadcastMessage (Sample.server (3 # 10)%Q)
      (MakeChatMessage (Sample.server (3 # 10)%Q) (Some Sample.alice) "hello"
         EChatChannel.Global)
      Sample.chat = Some (Accepted, Sys', out).
Proof.
  destruct (first_send_waits_on_the_client_only
              (Sample.client (3 # 10)%Q)
              {| GetAuthGameMode := false; GetTimeSeconds := (3 # 10)%Q |}
              (Sample.server (3 # 10)%Q)
              {| GetAuthGameMode := true; GetTimeSeconds := (3 # 10)%Q |}
              Sample.chat 1%positive Sample.alice "hello"
              EChatChannel.Global Sample.chat)
    as [Hclient Hserver]; try reflexivity; try discriminate.
  split; [exact Hclient | exact Hserver].
Defined.

Lemma after_shutdown_nothing_is_delivered_witness :
  ∃ Sys0 Sys',
    Deinitialize Sample.chat_after_alice = Some (tt, Sys0, []) ∧
    BroadcastMessage (Sample.server (1 # 10)%Q) (Sample.hello Sample.alice) Sys0 =
      Some (Accepted, Sys', []).
Proof.
  destruct (after_shutdown_nothing_is_delivered (Sample.server (1 # 10)%Q) _
              Sample.chat_after_alice (Sample.hello Sample.alice)
              eq_refl eq_refl eq_refl ltac:(discriminate))
    as (Sys0 & Sys' & Hdown & _ & _ & Hrun & _).
  by exists Sys0, Sys'.
Defined.
